(** * Relay, dispatch and liveness layer of the arcade server

    A shallow embedding of [server.go] (package [arcade]): the liveness
    record and its rolling mean round-trip time, the periodic heartbeat
    scheduler, the heartbeat bookkeeping entry points and the inbound
    message handler, followed by the properties of the written
    specification that concern them. *)

From Stdlib Require Import ZArith Lia.
From stdpp Require Import base option list gmap strings fin_maps.

Local Open Scope Z_scope.

(** ** Go's [time] package, as far as the server uses it *)

Module time.

(** [time.Duration] is an [int64] count of nanoseconds. *)
Definition Duration := Z.

(** An instant, in nanoseconds after the zero [time.Time]; the zero value
    of the type (what a missing map entry reads as) is [0]. *)
Definition Time := Z.

Definition zeroTime : Time := 0.

Definition minDuration : Duration := - 2 ^ 63.
Definition maxDuration : Duration := 2 ^ 63 - 1.

(** Two's-complement wrap-around of [int64] arithmetic. *)
Definition wrap64 (z : Z) : Z := (z + 2 ^ 63) mod 2 ^ 64 - 2 ^ 63.

Definition Millisecond : Duration := 1000000.

(** [t.Sub(u)]: the difference, clamped to the range of [Duration]. *)
Definition Sub (t u : Time) : Duration :=
  let d := t - u in
  if maxDuration <? d then maxDuration
  else if d <? minDuration then minDuration
  else d.

(** [d.Milliseconds()]: integer division of [int64] truncates. *)
Definition Milliseconds (d : Duration) : Z := d ÷ 1000000.

End time.

(** ** Constants of [server.go] *)

Definition timeoutInterval : time.Duration := 2500 * time.Millisecond.
Definition heartbeatInterval : time.Duration := 250 * time.Millisecond.
Definition rttAverageNum : Z := 10.

(** ** The liveness record *)

Record ConnectedClientInfo := {
  LastHeartbeat : time.Time;
  HeartbeatSendTimes : gmap Z time.Time;
  RTTs : list time.Duration
}.

(** The loop of [GetMeanRTT].  The loop variable [i] runs downwards from
    [len(c.RTTs) - 1]; the argument [n] is [i + 1], so that [n = 0] is the
    exit through [i >= 0] and the other exit is the explicit test
    [i >= len(c.RTTs) - (rttAverageNum + 1)].  The accumulator is a
    [Duration] and wraps; [count] is bounded by the length of the slice. *)
Fixpoint meanLoop (rtts : list time.Duration) (n : nat)
    (sum : time.Duration) (count : Z) : time.Duration * Z :=
  match n with
  | O => (sum, count)
  | S i =>
      if Z.of_nat (length rtts) - (rttAverageNum + 1) <=? Z.of_nat i
      then meanLoop rtts i (time.wrap64 (sum + nth i rtts 0)) (count + 1)
      else (sum, count)
  end.

Definition GetMeanRTT (c : ConnectedClientInfo) : time.Duration :=
  let '(sum, count) := meanLoop (RTTs c) (length (RTTs c)) 0 0 in
  if count =? 0 then time.wrap64 (-1 * time.Millisecond)
  else sum ÷ count.

(** The window the loop reads, most recent sample first. *)
Definition recent (k : nat) (rtts : list time.Duration) : list time.Duration :=
  take k (reverse rtts).

(** First index the loop still reads. *)
Definition windowStart (rtts : list time.Duration) : nat :=
  length rtts - S (Z.to_nat rttAverageNum).

(** Wrapping sum of a list of durations, added in list order. *)
Definition sumWrapped (l : list time.Duration) : time.Duration :=
  fold_left (fun acc d => time.wrap64 (acc + d)) l 0.

(** The mean that the specification describes: over the [k] most recent
    samples, with exact (unbounded) addition and truncating division. *)
Definition meanOfRecent (k : nat) (rtts : list time.Duration) : Z :=
  let window := recent k rtts in
  fold_left Z.add window 0 ÷ Z.of_nat (length window).

(** ** Message envelopes *)

Module message.

(** The embedded header [message.Message].  Its [Type] tag is only ever
    printed by the server and is determined by the dynamic type of the
    envelope, which is the constructor of [Body] below. *)
Record Message := {
  SenderID : string;
  RecipientID : string;
  MessageID : string
}.

(** The zero value of the header. *)
Definition zero : Message :=
  {| SenderID := ""; RecipientID := ""; MessageID := "" |}.

End message.

(** Heartbeat metadata and application payloads are opaque to the server. *)
Definition Metadata := string.
Definition Payload := string.

(** The dynamic types the handler's type switches distinguish; every other
    message type of the package is an [Application] envelope. *)
Inductive Body :=
  | DisconnectMessage
  | HeartbeatMessage (Seq : Z) (Metadata : Metadata)
  | HeartbeatReplyMessage (Seq : Z)
  | ErrorMessage (Message : string)
  | Application (payload : Payload).

Record Msg := {
  header : message.Message;
  body : Body
}.

(** Modelled from the spec: the constructors [NewErrorMessage],
    [NewHeartbeatMessage] and [NewHeartbeatReplyMessage] live in files of
    the package that are not part of the sources at hand; they build the
    reserved kinds [Error{message}], [Heartbeat{seq, metadata}] and
    [HeartbeatReply{seq}] with an unstamped header. *)
Definition NewErrorMessage (text : string) : Msg :=
  {| header := message.zero; body := ErrorMessage text |}.

Definition NewHeartbeatMessage (seq : Z) (metadata : Metadata) : Msg :=
  {| header := message.zero; body := HeartbeatMessage seq metadata |}.

Definition NewHeartbeatReplyMessage (seq : Z) : Msg :=
  {| header := message.zero; body := HeartbeatReplyMessage seq |}.

(** What [ProcessMessage] hands back through [interface{}] when it is not
    [nil]: an envelope, or a value implementing [error]. *)
Inductive Reply :=
  | ReplyMsg (m : Msg)
  | ReplyErr (text : string).

(** Events raised to the view manager. *)
Inductive Event :=
  | ClientDisconnectEvent (ClientID : string)
  | HeartbeatEvent (Metadata : Metadata).

Definition NewClientDisconnectEvent (clientID : string) : Event :=
  ClientDisconnectEvent clientID.

Definition NewHeartbeatEvent (metadata : Metadata) : Event :=
  HeartbeatEvent metadata.

Global Instance Body_eq_dec : EqDecision Body.
Proof. solve_decision. Defined.

Global Instance Message_eq_dec : EqDecision message.Message.
Proof. solve_decision. Defined.

Global Instance Msg_eq_dec : EqDecision Msg.
Proof. solve_decision. Defined.

Global Instance Event_eq_dec : EqDecision Event.
Proof. solve_decision. Defined.

(** ** The connection registry ([net.Network]) *)

Module net.

(** A [*net.Client] is a pointer; client objects live in a store and the
    registry maps identities to pointers, so that a write through one
    pointer is seen through every alias. *)
Definition ptr := positive.

Record Client := {
  ID : string;
  Seq : Z;
  Distance : Z
}.

(** [Distance] is a [float64] in the source.  The only value the server
    writes to it is the conversion of an [int64] millisecond count, which
    is below [2^53] in magnitude and therefore exact; the field holds
    that integer. *)

Definition zero : Client := {| ID := ""; Seq := 0; Distance := 0 |}.

Global Instance Client_inhabited : Inhabited Client := populate zero.

Definition withSeq (n : Z) (c : Client) : Client :=
  {| ID := ID c; Seq := n; Distance := Distance c |}.

Definition withDistance (d : Z) (c : Client) : Client :=
  {| ID := ID c; Seq := Seq c; Distance := d |}.

End net.

(** ** The application layer

    The view manager is an interface of the program; the server calls four
    of its operations.  It owns a state of its own and does not reach into
    the server's tables. *)
Class ApplicationLayer (A : Type) := {
  ProcessEvent : Event -> A -> A;
  ProcessMessage : net.ptr -> Msg -> A -> option Reply * A;
  GetHeartbeatMetadata : A -> Metadata;
  RequestDebugRender : A -> A
}.

(** ** The state the server runs in *)

Section Relay.

Context {A : Type} `{!ApplicationLayer A}.

(** The process-wide flag [arcade.Distributor]. *)
Variable Distributor : bool.

(** The wall clock: [clock n] is what the [n]-th call of [time.Now]
    (directly or through [time.Since]) returns. *)
Variable clock : nat -> time.Time.

(** The [Server] struct ([ID], [connectedClients]), the [net.Network] it
    points to ([registry], [heap], and the record [sent] and [signalled]
    of what it was asked to write and to signal), the view manager
    ([app], with the record [events] and [processed] of the calls made to
    it) and the number of clock readings so far.  The field
    [pingMessageTimes] of the struct is never used by the code below. *)
Record World := {
  ID : string;
  connectedClients : gmap string ConnectedClientInfo;
  registry : gmap string net.ptr;
  heap : gmap net.ptr net.Client;
  sent : list (net.ptr * Msg);
  signalled : list (string * Msg);
  app : A;
  events : list Event;
  processed : list (net.ptr * Msg);
  reads : nat
}.

Definition setConnectedClients (m : gmap string ConnectedClientInfo)
    (w : World) : World :=
  {| ID := ID w; connectedClients := m; registry := registry w;
     heap := heap w; sent := sent w; signalled := signalled w;
     app := app w; events := events w; processed := processed w;
     reads := reads w |}.

Definition setRegistry (r : gmap string net.ptr) (w : World) : World :=
  {| ID := ID w; connectedClients := connectedClients w; registry := r;
     heap := heap w; sent := sent w; signalled := signalled w;
     app := app w; events := events w; processed := processed w;
     reads := reads w |}.

Definition setHeap (h : gmap net.ptr net.Client) (w : World) : World :=
  {| ID := ID w; connectedClients := connectedClients w;
     registry := registry w; heap := h; sent := sent w;
     signalled := signalled w; app := app w; events := events w;
     processed := processed w; reads := reads w |}.

Definition setSent (l : list (net.ptr * Msg)) (w : World) : World :=
  {| ID := ID w; connectedClients := connectedClients w;
     registry := registry w; heap := heap w; sent := l;
     signalled := signalled w; app := app w; events := events w;
     processed := processed w; reads := reads w |}.

Definition setSignalled (l : list (string * Msg)) (w : World) : World :=
  {| ID := ID w; connectedClients := connectedClients w;
     registry := registry w; heap := heap w; sent := sent w;
     signalled := l; app := app w; events := events w;
     processed := processed w; reads := reads w |}.

Definition setApp (a : A) (ev : list Event) (pr : list (net.ptr * Msg))
    (w : World) : World :=
  {| ID := ID w; connectedClients := connectedClients w;
     registry := registry w; heap := heap w; sent := sent w;
     signalled := signalled w; app := a; events := ev;
     processed := pr; reads := reads w |}.

Definition setReads (n : nat) (w : World) : World :=
  {| ID := ID w; connectedClients := connectedClients w;
     registry := registry w; heap := heap w; sent := sent w;
     signalled := signalled w; app := app w; events := events w;
     processed := processed w; reads := n |}.

(** *** The clock *)

(** [time.Now()]. *)
Definition Now (w : World) : time.Time * World :=
  (clock (reads w), setReads (S (reads w)) w).

(** [time.Since(t)] is [time.Now().Sub(t)]. *)
Definition Since (t : time.Time) (w : World) : time.Duration * World :=
  let '(now, w') := Now w in (time.Sub now t, w').

(** *** The network, at its interface *)

(** Modelled from the spec: [Network.GetClient] of package [net], the
    registry's [lookup(identity) → (connection, found)]. *)
Definition GetClient (w : World) (id : string) : option net.ptr :=
  registry w !! id.

(** Modelled from the spec: [Network.Send] of package [net] serializes
    and writes the envelope on the connection; the write is recorded.
    The server ignores its result. *)
Definition Send (client : net.ptr) (m : Msg) (w : World) : World :=
  setSent (sent w ++ [(client, m)]) w.

(** Modelled from the spec: [Network.Disconnect] of package [net] closes
    the connection and removes the record of the identity; disconnecting
    an absent identity is a no-op. *)
Definition Disconnect (id : string) (w : World) : World :=
  setRegistry (delete id (registry w)) w.

(** Modelled from the spec: [Network.SignalReceived] of package [net]
    resolves the caller waiting for that correlation id; the call is
    recorded. *)
Definition SignalReceived (id : string) (m : Msg) (w : World) : World :=
  setSignalled (signalled w ++ [(id, m)]) w.

(** Dereferencing a client pointer. *)
Definition deref (w : World) (p : net.ptr) : net.Client := heap w !!! p.

(** *** Calls into the view manager *)

Definition raise (e : Event) (w : World) : World :=
  setApp (ProcessEvent e (app w)) (events w ++ [e]) (processed w) w.

Definition process (c : net.ptr) (m : Msg) (w : World)
    : option Reply * World :=
  let '(res, a) := ProcessMessage c m (app w) in
  (res, setApp a (events w) (processed w ++ [(c, m)]) w).

Definition debugRender (w : World) : World :=
  setApp (RequestDebugRender (app w)) (events w) (processed w) w.

(** *** Heartbeat bookkeeping *)

Definition withLastHeartbeat (t : time.Time) (i : ConnectedClientInfo)
    : ConnectedClientInfo :=
  {| LastHeartbeat := t; HeartbeatSendTimes := HeartbeatSendTimes i;
     RTTs := RTTs i |}.

Definition withSendTime (seq : Z) (t : time.Time) (i : ConnectedClientInfo)
    : ConnectedClientInfo :=
  {| LastHeartbeat := LastHeartbeat i;
     HeartbeatSendTimes := <[seq := t]> (HeartbeatSendTimes i);
     RTTs := RTTs i |}.

Definition withSample (d : time.Duration) (i : ConnectedClientInfo)
    : ConnectedClientInfo :=
  {| LastHeartbeat := LastHeartbeat i;
     HeartbeatSendTimes := HeartbeatSendTimes i;
     RTTs := RTTs i ++ [d] |}.

Definition BeginHeartbeats (clientID : string) (w : World) : World :=
  let '(now, w) := Now w in
  setConnectedClients
    (<[clientID := {| LastHeartbeat := now; HeartbeatSendTimes := ∅;
                      RTTs := [] |}]> (connectedClients w)) w.

Definition EndHeartbeats (clientID : string) (w : World) : World :=
  setConnectedClients (delete clientID (connectedClients w)) w.

Definition EndAllHeartbeats (w : World) : World :=
  setConnectedClients ∅ w.

Definition GetHeartbeatClients (w : World)
    : gmap string ConnectedClientInfo :=
  connectedClients w.

(** *** The heartbeat scheduler *)

(** The eviction branch of the loop body: the disconnect event, then
    [delete(s.connectedClients, clientID)]. *)
Definition evict (clientID : string) (w : World) : World :=
  let w := raise (NewClientDisconnectEvent clientID) w in
  setConnectedClients (delete clientID (connectedClients w)) w.

(** The heartbeat branch of the loop body, for the record [info] of
    [clientID] and the pointer [client] its registry lookup gave. *)
Definition beat (clientID : string) (info : ConnectedClientInfo)
    (client : net.ptr) (w : World) : World :=
  let metadata := GetHeartbeatMetadata (app w) in
  let w := Send client (NewHeartbeatMessage (net.Seq (deref w client)) metadata) w in
  let seq := net.Seq (deref w client) in
  let '(now, w) := Now w in
  let w :=
    setConnectedClients
      (<[clientID := withSendTime seq now info]> (connectedClients w)) w in
  setHeap
    (<[client := net.withSeq (time.wrap64 (net.Seq (deref w client) + 1))
                   (deref w client)]> (heap w)) w.

(** One iteration of [for clientID, info := range s.connectedClients].
    An identity that is no longer a key of the map is not produced by
    the range.  The timeout test is the right operand of [||] and reads
    the clock only when the registry lookup succeeded. *)
Definition visit (w : World) (clientID : string) : World :=
  match connectedClients w !! clientID with
  | None => w
  | Some info =>
      match GetClient w clientID with
      | None => evict clientID w
      | Some client =>
          let '(silent, w) := Since (LastHeartbeat info) w in
          if timeoutInterval <=? silent then evict clientID w
          else beat clientID info client w
      end
  end.

(** One pass of the outer loop of [startHeartbeats], between [s.Lock()]
    and [s.Unlock()].  Go ranges over a map in an unspecified order;
    [order] is the order of this pass. *)
Definition tick (order : list string) (w : World) : World :=
  fold_left visit order w.

(** [order] is a possible iteration order over the liveness table of
    [w]: every key, once. *)
Definition rangeOrder (order : list string) (w : World) : Prop :=
  NoDup order /\ forall id, id ∈ order <-> is_Some (connectedClients w !! id).

(** *** The inbound message handler *)

(** [s[:4]] on a string panics when the string has fewer than four
    bytes. *)
Definition sliceable (s : string) : bool := (4 <=? String.length s)%nat.

(** The stamping of a reply (the three reflective field writes). *)
Definition stamp (baseMsg : message.Message) (self : string) (res : Msg)
    : Msg :=
  {| header := {| message.SenderID := self;
                  message.RecipientID := message.SenderID baseMsg;
                  message.MessageID := message.MessageID baseMsg |};
     body := body res |}.

(** How the body of [handleMessage] up to the test [res == nil] ends:
    in a panic, in the early [return] of the forwarding branch, or by
    falling through with the candidate reply [res]. *)
Inductive Dispatched :=
  | Panicked
  | Returned (w : World)
  | Fell (w : World) (res : option Reply).

(** The [HeartbeatMessage] case. *)
Definition onHeartbeat (c : net.ptr) (baseMsg : message.Message)
    (seq : Z) (metadata : Metadata) (w : World) : Dispatched :=
  let sender := message.SenderID baseMsg in
  let w :=
    match connectedClients w !! sender with
    | Some info =>
        let '(now, w) := Now w in
        let info := withLastHeartbeat now info in
        let w :=
          setConnectedClients (<[sender := info]> (connectedClients w)) w in
        setHeap
          (<[c := net.withDistance (time.Milliseconds (GetMeanRTT info))
                    (deref w c)]> (heap w)) w
    | None => w
    end in
  let w := raise (NewHeartbeatEvent metadata) w in
  Fell w (Some (ReplyMsg (NewHeartbeatReplyMessage seq))).

(** The [HeartbeatReplyMessage] case.  A pending send time that is not
    in [HeartbeatSendTimes] reads as the zero [time.Time]. *)
Definition onHeartbeatReply (baseMsg : message.Message) (seq : Z)
    (w : World) : Dispatched :=
  let sender := message.SenderID baseMsg in
  if decide (message.RecipientID baseMsg = ID w) then
    let w :=
      match connectedClients w !! sender with
      | Some info =>
          let '(now, w) := Now w in
          let info := withLastHeartbeat now info in
          let w :=
            setConnectedClients (<[sender := info]> (connectedClients w))
              w in
          let sendTime :=
            default time.zeroTime (HeartbeatSendTimes info !! seq) in
          let '(rtt, w) := Since sendTime w in
          setConnectedClients
            (<[sender := withSample rtt info]> (connectedClients w)) w
      | None => w
      end in
    Fell (debugRender w) None
  else Fell w None.

(** Lines 134 to 213: everything before [if res == nil]. *)
Definition dispatch (c : net.ptr) (msg : Msg) (w : World) : Dispatched :=
  let baseMsg := header msg in
  let w := SignalReceived (message.MessageID baseMsg) msg w in
  if Distributor && negb (sliceable (message.SenderID baseMsg))
  then Panicked
  else
    match body msg with
    | DisconnectMessage =>
        let id := net.ID (deref w c) in
        let w := raise (ClientDisconnectEvent id) w in
        Fell (Disconnect id w) None
    | _ =>
        if decide (message.RecipientID baseMsg <> ID w) then
          if Distributor && negb (sliceable (message.RecipientID baseMsg))
          then Panicked
          else
            match GetClient w (message.RecipientID baseMsg) with
            | Some recipient => Returned (Send recipient msg w)
            | None =>
                Fell w (Some (ReplyMsg (NewErrorMessage "Invalid recipient")))
            end
        else if Distributor then Panicked
        else
          match body msg with
          | HeartbeatMessage seq metadata =>
              onHeartbeat c baseMsg seq metadata w
          | HeartbeatReplyMessage seq => onHeartbeatReply baseMsg seq w
          | _ =>
              let '(res, w) := process c msg w in
              Fell w res
          end
    end.

(** Lines 215 to 228: an [error] is wrapped, the reply is stamped and
    sent on the connection the request came from. *)
Definition respond (c : net.ptr) (baseMsg : message.Message)
    (res : option Reply) (w : World) : World :=
  match res with
  | None => w
  | Some r =>
      let res :=
        match r with
        | ReplyErr text => NewErrorMessage text
        | ReplyMsg m => m
        end in
      Send c (stamp baseMsg (ID w) res) w
  end.

(** The result of a call of [handleMessage]. *)
Inductive Outcome :=
  | Panic
  | Done (w : World).

Definition handleMessage (c : net.ptr) (msg : Msg) (w : World) : Outcome :=
  match dispatch c msg w with
  | Panicked => Panic
  | Returned w => Done w
  | Fell w res => Done (respond c (header msg) res w)
  end.

End Relay.

Arguments World : clear implicits.
Arguments Dispatched : clear implicits.
Arguments Outcome : clear implicits.

(** ** The operations of the server, as one step function *)

Inductive Operation :=
  | OpBeginHeartbeats (clientID : string)
  | OpEndHeartbeats (clientID : string)
  | OpEndAllHeartbeats
  | OpTick (order : list string)
  | OpHandleMessage (c : net.ptr) (msg : Msg).

Definition perform {A} `{!ApplicationLayer A} (Distributor : bool)
    (clock : nat -> time.Time) (op : Operation) (w : World A) : Outcome A :=
  match op with
  | OpBeginHeartbeats clientID => Done (BeginHeartbeats clock clientID w)
  | OpEndHeartbeats clientID => Done (EndHeartbeats clientID w)
  | OpEndAllHeartbeats => Done (EndAllHeartbeats w)
  | OpTick order => Done (tick clock order w)
  | OpHandleMessage c msg => handleMessage Distributor clock c msg w
  end.

(** The operations that cannot leave a tracked identity without a
    registry entry: all of them, except [BeginHeartbeats] for an identity
    that is not registered and a [DisconnectMessage] arriving on the
    connection of a tracked identity. *)
Definition coverSafe {A} (op : Operation) (w : World A) : Prop :=
  match op with
  | OpBeginHeartbeats clientID => is_Some (registry w !! clientID)
  | OpHandleMessage c msg =>
      body msg = DisconnectMessage ->
      connectedClients w !! net.ID (deref w c) = None
  | _ => True
  end.

(** ** Observations on runs *)

(** Number of disconnect events for [id] in a stretch of the event log. *)
Definition disconnects (id : string) (evs : list Event) : nat :=
  length (filter (fun e => e = ClientDisconnectEvent id) evs).

(** The header a reply to [msg] carries when it leaves instance [self]. *)
Definition replyHeader (self : string) (msg : Msg) : message.Message :=
  {| message.SenderID := self;
     message.RecipientID := message.SenderID (header msg);
     message.MessageID := message.MessageID (header msg) |}.

(** The body of the envelope that goes out for a candidate reply. *)
Definition replyBody (r : Reply) : Body :=
  match r with
  | ReplyMsg m => body m
  | ReplyErr text => ErrorMessage text
  end.

(** The debug output of a distributor slices the identities it prints;
    [printable Distributor msg] says that those slices are in range. *)
Definition printable (Distributor : bool) (msg : Msg) : Prop :=
  Distributor = true ->
  sliceable (message.SenderID (header msg)) = true /\
  sliceable (message.RecipientID (header msg)) = true.

(** The liveness table is covered by the registry. *)
Definition trackedAreRegistered {A} (w : World A) : Prop :=
  forall id, is_Some (connectedClients w !! id) -> is_Some (registry w !! id).

(** ** Concrete inputs *)

(** An application layer that keeps no state and never replies. *)
#[global] Instance silentApp : ApplicationLayer unit :=
  {| ProcessEvent := fun _ a => a;
     ProcessMessage := fun _ _ a => (None, a);
     GetHeartbeatMetadata := fun _ => "meta";
     RequestDebugRender := fun a => a |}.

(** An application layer that counts the calls made to it and turns every
    request down with an error value. *)
#[global] Instance busyApp : ApplicationLayer nat :=
  {| ProcessEvent := fun _ n => S n;
     ProcessMessage := fun _ _ n => (Some (ReplyErr "lobby full"), S n);
     GetHeartbeatMetadata := fun _ => "meta";
     RequestDebugRender := fun n => n |}.

(** A clock that stands at three seconds. *)
Definition clockAt3s : nat -> time.Time := fun _ => 3000 * time.Millisecond.

(** A record created at instant [0] with one pending heartbeat. *)
Definition infoIdle : ConnectedClientInfo :=
  {| LastHeartbeat := 0; HeartbeatSendTimes := {[ 7 := 2900 * time.Millisecond ]};
     RTTs := [] |}.

(** An instance ["self"] with one peer ["peer"], registered under pointer
    [1] and tracked. *)
Definition worldPeer : World unit :=
  {| ID := "self";
     connectedClients := {[ "peer" := infoIdle ]};
     registry := {[ "peer" := 1%positive ]};
     heap := {[ 1%positive := {| net.ID := "peer"; net.Seq := 7; net.Distance := 0 |} ]};
     sent := []; signalled := []; app := tt; events := []; processed := [];
     reads := 0 |}.

(** The same instance before any peer connected. *)
Definition worldEmpty : World unit :=
  {| ID := "self"; connectedClients := ∅; registry := ∅; heap := ∅;
     sent := []; signalled := []; app := tt; events := []; processed := [];
     reads := 0 |}.

(** Eleven samples, oldest first: one of eleven milliseconds followed by
    ten of zero. *)
Definition infoEleven : ConnectedClientInfo :=
  {| LastHeartbeat := 0; HeartbeatSendTimes := ∅;
     RTTs := 11 * time.Millisecond :: replicate 10 0 |}.

(** Envelopes arriving at ["self"] on the connection of ["peer"]. *)
Definition fromPeer (recipient : string) (b : Body) : Msg :=
  {| header := {| message.SenderID := "peer"; message.RecipientID := recipient;
                  message.MessageID := "m-42" |};
     body := b |}.

(** An envelope whose sender identity has fewer than four bytes. *)
Definition fromShort (recipient : string) (b : Body) : Msg :=
  {| header := {| message.SenderID := "x"; message.RecipientID := recipient;
                  message.MessageID := "m-43" |};
     body := b |}.

(** ["self"] with a second registered peer ["dest"], under pointer [2]. *)
Definition worldTwoPeers : World unit :=
  {| ID := "self";
     connectedClients := {[ "peer" := infoIdle ]};
     registry := {[ "peer" := 1%positive; "dest" := 2%positive ]};
     heap := {[ 1%positive := {| net.ID := "peer"; net.Seq := 7; net.Distance := 0 |};
                2%positive := {| net.ID := "dest"; net.Seq := 0; net.Distance := 0 |} ]};
     sent := []; signalled := []; app := tt; events := []; processed := [];
     reads := 0 |}.

(** ["self"] in front of the busy application layer, and the state in
    which the first part of the handler leaves it after a join request
    from ["peer"]. *)
Definition worldBusy : World nat :=
  {| ID := "self";
     connectedClients := ∅;
     registry := {[ "peer" := 1%positive ]};
     heap := {[ 1%positive := {| net.ID := "peer"; net.Seq := 0; net.Distance := 0 |} ]};
     sent := []; signalled := []; app := 0%nat; events := []; processed := [];
     reads := 0 |}.

Definition joinRequest : Msg := fromPeer "self" (Application "join").

Definition worldBusyAsked : World nat :=
  {| ID := "self";
     connectedClients := ∅;
     registry := {[ "peer" := 1%positive ]};
     heap := {[ 1%positive := {| net.ID := "peer"; net.Seq := 0; net.Distance := 0 |} ]};
     sent := []; signalled := [("m-42", joinRequest)]; app := 1%nat;
     events := []; processed := [(1%positive, joinRequest)];
     reads := 0 |}.

(** ** Further observations on the handler and the scheduler *)

(** The envelopes that reach [ProcessMessage]: addressed to the instance
    and of a kind that neither type switch of [handleMessage] names. *)
Definition handedToApplication (self : string) (msg : Msg) : bool :=
  bool_decide (message.RecipientID (header msg) = self) &&
  match body msg with
  | ErrorMessage _ | Application _ => true
  | _ => false
  end.


(** ** The lobby view ([lobby_view.go]) *)

Module lobby.

(** The fields of the shared [Lobby] that the view reads. *)
Record Lobby := {
  Name : string;
  Private : bool;
  Capacity : Z;
  HostID : string;
  PlayerIDs : list string;
  code : string
}.

(** [&Lobby{}]. *)
Definition zero : Lobby :=
  {| Name := ""; Private := false; Capacity := 0; HostID := "";
     PlayerIDs := []; code := "" |}.

(** The payload types [ProcessMessage] switches on. *)
Inductive Packet :=
  | HelloMessage
  | JoinMessage (Code PlayerID : string)
  | LeaveMessage (PlayerID : string)
  | OtherMessage.

Inductive JoinStatus := OK | ErrCapacity | ErrWrongCode.

(** What [NewLobbyInfoMessage] and [NewJoinReplyMessage] are given. *)
Inductive Reply :=
  | LobbyInfoMessage (l : Lobby)
  | JoinReplyMessage (l : Lobby) (status : JoinStatus).

Section View.

(** The methods [AddPlayer] and [RemovePlayer] of [Lobby] are defined in
    another file of the package. *)
Variable AddPlayer : string -> Lobby -> Lobby.
Variable RemovePlayer : string -> Lobby -> Lobby.

(** [LobbyView.ProcessMessage] on the shared lobby [arcade.Lobby], for one
    call that runs without interleaving.  The source holds read locks only
    during its tests and gives up the lock of the lobby around
    [AddPlayer], so calls that run concurrently are not described by this
    function.  The reply to an admitted join points to the lobby as
    [AddPlayer] left it. *)
Definition ProcessMessage (from : net.ptr) (p : Packet) (l : Lobby)
    : option Reply * Lobby :=
  match p with
  | HelloMessage => (Some (LobbyInfoMessage l), l)
  | JoinMessage Code PlayerID =>
      if Z.of_nat (length (PlayerIDs l)) =? Capacity l
      then (Some (JoinReplyMessage zero ErrCapacity), l)
      else if negb (String.eqb (code l) Code)
      then (Some (JoinReplyMessage zero ErrWrongCode), l)
      else
        let l := AddPlayer PlayerID l in
        (Some (JoinReplyMessage l OK), l)
  | LeaveMessage PlayerID => (None, RemovePlayer PlayerID l)
  | OtherMessage => (None, l)
  end.

End View.

(** A lobby for two with one seat taken, and list-based player
    bookkeeping to run the view with. *)
Definition duel : Lobby :=
  {| Name := "duel"; Private := true; Capacity := 2; HostID := "host";
     PlayerIDs := ["host"]; code := "1234" |}.

Definition appendPlayer (id : string) (l : Lobby) : Lobby :=
  {| Name := Name l; Private := Private l; Capacity := Capacity l;
     HostID := HostID l; PlayerIDs := PlayerIDs l ++ [id]; code := code l |}.

Definition dropPlayer (id : string) (l : Lobby) : Lobby :=
  {| Name := Name l; Private := Private l; Capacity := Capacity l;
     HostID := HostID l;
     PlayerIDs := filter (fun p => p <> id) (PlayerIDs l); code := code l |}.

End lobby.

(** ** Further concrete inputs *)

(** A clock that stands at one second. *)
Definition clockAt1s : nat -> time.Time := fun _ => 1000 * time.Millisecond.

(** A clock that advances by forty milliseconds with every reading. *)
Definition clockTicking : nat -> time.Time :=
  fun n => (1000 + 40 * Z.of_nat n) * time.Millisecond.

(** A clock of the present day: the readings lie some 2025 years after
    the zero time, which is more than a [Duration] can hold. *)
Definition clockWall : nat -> time.Time :=
  fun n => (63900000000 * 1000 + 40 * Z.of_nat n) * time.Millisecond.

(** A record with three samples. *)
Definition infoThree : ConnectedClientInfo :=
  {| LastHeartbeat := 0; HeartbeatSendTimes := ∅;
     RTTs := [30 * time.Millisecond; 50 * time.Millisecond;
              40 * time.Millisecond] |}.

(** ["self"] tracking ["gone"], which has no registry entry. *)
Definition worldGone : World unit :=
  {| ID := "self";
     connectedClients := {[ "gone" := infoIdle ]};
     registry := ∅; heap := ∅;
     sent := []; signalled := []; app := tt; events := []; processed := [];
     reads := 0 |}.

(** * Properties *)

(** ** The rolling mean *)

Section MeanRTT.

Implicit Types (rtts : list time.Duration) (c : ConnectedClientInfo).

Lemma wrap64_range z : time.minDuration <= time.wrap64 z <= time.maxDuration.
Proof.
  unfold time.wrap64, time.minDuration, time.maxDuration.
  pose proof (Z.mod_pos_bound (z + 2 ^ 63) (2 ^ 64) ltac:(lia)). lia.
Qed.

Lemma wrap64_small z :
  time.minDuration <= z <= time.maxDuration -> time.wrap64 z = z.
Proof.
  unfold time.wrap64, time.minDuration, time.maxDuration. intros Hz.
  rewrite Z.mod_small by lia. lia.
Qed.

Lemma meanLoop_unfold rtts n sum count :
  (n <= length rtts)%nat ->
  meanLoop rtts n sum count =
    (fold_left (fun acc d => time.wrap64 (acc + d))
       (take (n - windowStart rtts) (reverse (take n rtts))) sum,
     count + Z.of_nat (n - windowStart rtts)).
Proof.
  revert sum count. induction n as [|i IH]; intros sum count Hn.
  - simpl. f_equal. lia.
  - cbn [meanLoop].
    destruct (lookup_lt_is_Some_2 rtts i ltac:(lia)) as [x Hx].
    destruct (Z.leb_spec (Z.of_nat (length rtts) - (rttAverageNum + 1))
                (Z.of_nat i)) as [Hin|Hout].
    + assert (Hk : (S i - windowStart rtts = S (i - windowStart rtts))%nat).
      { unfold windowStart, rttAverageNum in *. lia. }
      rewrite IH by lia. rewrite Hk.
      rewrite (take_S_r _ _ _ Hx), reverse_snoc. cbn [take fold_left].
      rewrite nth_lookup, Hx. cbn [default]. f_equal. lia.
    + assert (Hk : (S i - windowStart rtts = 0)%nat).
      { unfold windowStart, rttAverageNum in *. lia. }
      rewrite Hk. cbn. f_equal. lia.
Qed.

Lemma recent_length k rtts :
  length (recent k rtts) = (k `min` length rtts)%nat.
Proof. unfold recent. by rewrite length_take, length_reverse. Qed.

(** What the loop computes: the wrapping sum and the number of the
    [rttAverageNum + 1] most recent samples. *)
Lemma meanLoop_window rtts :
  meanLoop rtts (length rtts) 0 0 =
    (sumWrapped (recent (S (Z.to_nat rttAverageNum)) rtts),
     Z.of_nat (length (recent (S (Z.to_nat rttAverageNum)) rtts))).
Proof.
  rewrite meanLoop_unfold by lia. rewrite firstn_all.
  unfold sumWrapped, recent.
  assert (Hk : (length rtts - windowStart rtts
                = S (Z.to_nat rttAverageNum) `min` length rtts)%nat).
  { unfold windowStart. lia. }
  rewrite Hk.
  replace (take (S (Z.to_nat rttAverageNum) `min` length rtts) (reverse rtts))
    with (take (S (Z.to_nat rttAverageNum)) (reverse rtts)).
  - f_equal. rewrite length_take, length_reverse. lia.
  - destruct (Nat.le_ge_cases (S (Z.to_nat rttAverageNum)) (length rtts))
      as [Hle|Hge].
    + by rewrite Nat.min_l.
    + rewrite Nat.min_r by done.
      rewrite !take_ge; [done | rewrite length_reverse; lia
                         | rewrite length_reverse; lia].
Qed.

(** The function in closed form, for every record. *)
Lemma GetMeanRTT_window c :
  GetMeanRTT c =
    match RTTs c with
    | [] => - time.Millisecond
    | _ =>
        sumWrapped (recent (S (Z.to_nat rttAverageNum)) (RTTs c))
        ÷ Z.of_nat (length (recent (S (Z.to_nat rttAverageNum)) (RTTs c)))
    end.
Proof.
  unfold GetMeanRTT. rewrite meanLoop_window, recent_length.
  destruct (RTTs c) as [|d rtts] eqn:E; [done|].
  destruct (Z.eqb_spec
              (Z.of_nat (S (Z.to_nat rttAverageNum) `min` length (d :: rtts)))
              0) as [H0|H0]; [|done].
  exfalso. cbn [length] in H0. unfold rttAverageNum in H0. lia.
Qed.

(** With samples between zero and [2^59] nanoseconds (some eighteen
    years) the sum of a window cannot wrap. *)
Lemma sumWrapped_exact (l : list time.Duration) (acc B : Z) :
  0 <= B -> 0 <= acc ->
  acc + Z.of_nat (length l) * B <= time.maxDuration ->
  Forall (fun d => 0 <= d <= B) l ->
  fold_left (fun a d => time.wrap64 (a + d)) l acc = fold_left Z.add l acc.
Proof.
  intros HB. revert acc. induction l as [|d l IH]; intros acc Hacc Hmax Hl.
  - done.
  - apply Forall_cons in Hl as [Hd Hl]. cbn [fold_left length] in *.
    rewrite wrap64_small.
    + apply IH; [lia| |done]. nia.
    + unfold time.minDuration. nia.
Qed.

(** Under that bound the function is the truncated mean of the
    [rttAverageNum + 1] most recent samples. *)
Lemma GetMeanRTT_mean_of_window c :
  RTTs c <> [] ->
  Forall (fun d => 0 <= d <= 2 ^ 59) (RTTs c) ->
  GetMeanRTT c = meanOfRecent (S (Z.to_nat rttAverageNum)) (RTTs c).
Proof.
  intros Hne Hb. rewrite GetMeanRTT_window.
  destruct (RTTs c) as [|d0 l0] eqn:E; [done|]. rewrite <- E in *.
  unfold meanOfRecent, sumWrapped. f_equal.
  apply (sumWrapped_exact _ 0 (2 ^ 59)); [lia|lia| |].
  - rewrite recent_length. unfold time.maxDuration, rttAverageNum.
    change (Z.to_nat 10) with 10%nat. lia.
  - unfold recent. by apply Forall_take, Forall_reverse.
Qed.

(** As long as the history holds no more than [rttAverageNum] samples,
    this is the mean the specification asks for. *)
Lemma GetMeanRTT_short_history c :
  RTTs c <> [] ->
  (length (RTTs c) <= Z.to_nat rttAverageNum)%nat ->
  Forall (fun d => 0 <= d <= 2 ^ 59) (RTTs c) ->
  GetMeanRTT c = meanOfRecent (Z.to_nat rttAverageNum) (RTTs c).
Proof.
  intros Hne Hlen Hb. rewrite GetMeanRTT_mean_of_window by done.
  unfold meanOfRecent, recent.
  rewrite !take_ge; [done|rewrite length_reverse; lia..].
Qed.

(** The result always fits an [int64], and its millisecond count is small
    enough to be represented exactly by a [float64]. *)
Lemma GetMeanRTT_range c :
  time.minDuration <= GetMeanRTT c <= time.maxDuration.
Proof.
  rewrite GetMeanRTT_window. destruct (RTTs c) as [|d l] eqn:E.
  - by vm_compute.
  - rewrite <- E.
    assert (Hs : time.minDuration
                 <= sumWrapped (recent (S (Z.to_nat rttAverageNum)) (RTTs c))
                 <= time.maxDuration).
    { unfold sumWrapped.
      destruct (recent _ _) as [|x xs] using rev_ind; [by vm_compute|].
      rewrite fold_left_app. cbn. apply wrap64_range. }
    assert (Hn : 0 < Z.of_nat
                       (length (recent (S (Z.to_nat rttAverageNum)) (RTTs c)))).
    { rewrite recent_length, E. cbn [length]. lia. }
    revert Hs Hn. generalize (sumWrapped (recent (S (Z.to_nat rttAverageNum)) (RTTs c))).
    generalize (Z.of_nat (length (recent (S (Z.to_nat rttAverageNum)) (RTTs c)))).
    unfold time.minDuration, time.maxDuration. intros n z Hz Hn.
    destruct (Z.le_gt_cases 0 z).
    + pose proof (Z.quot_pos z n ltac:(lia) ltac:(lia)).
      pose proof (Z.quot_le_upper_bound z n z ltac:(lia) ltac:(nia)). lia.
    + pose proof (Z.quot_opp_l z n ltac:(lia)) as Ho.
      pose proof (Z.quot_pos (- z) n ltac:(lia) ltac:(lia)).
      pose proof (Z.quot_le_upper_bound (- z) n (- z) ltac:(lia) ltac:(nia)).
      lia.
Qed.

Lemma Milliseconds_exact (d : time.Duration) :
  time.minDuration <= d <= time.maxDuration ->
  - 2 ^ 53 < time.Milliseconds d < 2 ^ 53.
Proof.
  unfold time.Milliseconds, time.minDuration, time.maxDuration. intros Hd.
  destruct (Z.le_gt_cases 0 d).
  - pose proof (Z.quot_pos d 1000000 ltac:(lia) ltac:(lia)).
    pose proof (Z.quot_le_mono d (2 ^ 63) 1000000 ltac:(lia) ltac:(lia)) as Hm.
    change (2 ^ 63 ÷ 1000000) with 9223372036854 in Hm. lia.
  - pose proof (Z.quot_opp_l d 1000000 ltac:(lia)).
    pose proof (Z.quot_pos (- d) 1000000 ltac:(lia) ltac:(lia)).
    pose proof (Z.quot_le_mono (- d) (2 ^ 63) 1000000 ltac:(lia) ltac:(lia)) as Hm.
    change (2 ^ 63 ÷ 1000000) with 9223372036854 in Hm. lia.
Qed.

End MeanRTT.

(** C1, at an input where the code departs from it: with eleven samples in
    the history, [GetMeanRTT] averages all eleven (one millisecond here),
    whereas the mean of the last [rttAverageNum] samples is zero. *)
Theorem GetMeanRTT_eleven_samples :
  GetMeanRTT infoEleven = 1 * time.Millisecond /\
  meanOfRecent (Z.to_nat rttAverageNum) (RTTs infoEleven) = 0 /\
  length (RTTs infoEleven) = 11%nat.
Proof. by vm_compute. Qed.

(** ** The heartbeat scheduler *)

Section Scheduler.

Context {A : Type} `{!ApplicationLayer A}.
Variable clock : nat -> time.Time.

Implicit Types (w : World A) (id k : string) (order : list string).

Lemma evict_spec k w :
  connectedClients (evict k w) = delete k (connectedClients w) /\
  registry (evict k w) = registry w /\
  events (evict k w) = events w ++ [ClientDisconnectEvent k] /\
  reads (evict k w) = reads w.
Proof. done. Qed.

(** One iteration never touches the registry. *)
Lemma visit_registry w k : registry (visit clock w k) = registry w.
Proof.
  unfold visit, GetClient.
  destruct (connectedClients w !! k); [|done].
  destruct (registry w !! k); [|done].
  cbn. by case_match.
Qed.

Lemma visit_reads w k : (reads w <= reads (visit clock w k))%nat.
Proof.
  unfold visit, GetClient.
  destruct (connectedClients w !! k); [|done].
  destruct (registry w !! k); [|done].
  cbn. case_match; cbn; lia.
Qed.

(** One iteration leaves the records of the other identities alone. *)
Lemma visit_lookup_ne w k id :
  k <> id ->
  connectedClients (visit clock w k) !! id = connectedClients w !! id.
Proof.
  intros Hne. unfold visit, GetClient.
  destruct (connectedClients w !! k); [|done].
  destruct (registry w !! k); cbn.
  - case_match; cbn.
    + by rewrite lookup_delete_ne.
    + by rewrite lookup_insert_ne.
  - by rewrite lookup_delete_ne.
Qed.

(** A record that survives its own iteration belongs to a registered
    identity. *)
Lemma visit_survivor w k :
  is_Some (connectedClients (visit clock w k) !! k) ->
  is_Some (registry w !! k).
Proof.
  unfold visit, GetClient.
  destruct (connectedClients w !! k) eqn:Hk.
  - destruct (registry w !! k); [by eauto|].
    cbn. rewrite lookup_delete_eq. by intros [? ?].
  - rewrite Hk. by intros [? ?].
Qed.

(** One iteration only ever shrinks the set of tracked identities. *)
Lemma visit_tracked w k id :
  is_Some (connectedClients (visit clock w k) !! id) ->
  is_Some (connectedClients w !! id).
Proof.
  destruct (decide (k = id)) as [->|Hne].
  - unfold visit. destruct (connectedClients w !! id) eqn:Hk; [by eauto|].
    by rewrite Hk.
  - by rewrite visit_lookup_ne.
Qed.

(** The only event an iteration can raise is the disconnect of the
    identity it visits. *)
Lemma visit_events w k :
  events (visit clock w k) = events w \/
  events (visit clock w k) = events w ++ [ClientDisconnectEvent k].
Proof.
  unfold visit, GetClient.
  destruct (connectedClients w !! k); [|by left].
  destruct (registry w !! k); cbn; [|by right].
  case_match; cbn; [by right | by left].
Qed.

(** The iteration of a peer that has been silent for the timeout. *)
Lemma visit_silent w k info :
  connectedClients w !! k = Some info ->
  timeoutInterval <= time.Sub (clock (reads w)) (LastHeartbeat info) ->
  connectedClients (visit clock w k) !! k = None /\
  events (visit clock w k) = events w ++ [ClientDisconnectEvent k].
Proof.
  intros Hk Hsilent. unfold visit, GetClient. rewrite Hk.
  destruct (registry w !! k); cbn.
  - destruct (Z.leb_spec timeoutInterval
                (time.Sub (clock (reads w)) (LastHeartbeat info))); [|lia].
    cbn. by rewrite lookup_delete_eq.
  - by rewrite lookup_delete_eq.
Qed.

Lemma tick_registry order w : registry (tick clock order w) = registry w.
Proof.
  unfold tick. revert w. induction order as [|k order IH]; intros w; [done|].
  cbn. by rewrite IH, visit_registry.
Qed.

Lemma tick_tracked order w id :
  is_Some (connectedClients (tick clock order w) !! id) ->
  is_Some (connectedClients w !! id).
Proof.
  unfold tick. revert w. induction order as [|k order IH]; intros w; [done|].
  cbn. intros Hid. by eapply visit_tracked, IH.
Qed.

Lemma disconnects_app id evs1 evs2 :
  disconnects id (evs1 ++ evs2) = (disconnects id evs1 + disconnects id evs2)%nat.
Proof. unfold disconnects. by rewrite filter_app, length_app. Qed.

(** A pass over identities other than [id] keeps the record of [id],
    only moves the clock forward and raises no disconnect for [id]. *)
Lemma tick_elsewhere order w id :
  id ∉ order ->
  connectedClients (tick clock order w) !! id = connectedClients w !! id /\
  (reads w <= reads (tick clock order w))%nat /\
  exists evs, events (tick clock order w) = events w ++ evs /\
              disconnects id evs = 0%nat.
Proof.
  unfold tick. revert w. induction order as [|k order IH]; intros w Hid.
  - cbn. split_and!; [done..|]. exists []. by rewrite app_nil_r.
  - apply not_elem_of_cons in Hid as [Hne Hid]. cbn [fold_left].
    destruct (IH (visit clock w k) Hid) as (Hl & Hr & evs & He & Hd).
    split_and!.
    + by rewrite Hl, visit_lookup_ne.
    + pose proof (visit_reads w k). lia.
    + destruct (visit_events w k) as [Hv|Hv]; rewrite He, Hv.
      * by exists evs.
      * exists (ClientDisconnectEvent k :: evs). split.
        { by rewrite <- app_assoc. }
        unfold disconnects in *. rewrite filter_cons_False; [done|].
        intros [= ?]. congruence.
Qed.

End Scheduler.

(** ** Timeout eviction *)

Section Timeout.

Context {A : Type} `{!ApplicationLayer A}.
Variable clock : nat -> time.Time.

(** C2, as amended: when a tracked peer has been silent for at least
    [timeoutInterval] throughout a pass of the scheduler, the pass raises
    exactly one disconnect event for it and removes it from the liveness
    table; the connection registry is left as it was. *)
Theorem tick_evicts_silent_peer (order : list string) (w : World A)
    (id : string) (info : ConnectedClientInfo) :
  rangeOrder order w ->
  connectedClients w !! id = Some info ->
  (forall n, (reads w <= n)%nat ->
     timeoutInterval <= time.Sub (clock n) (LastHeartbeat info)) ->
  (exists evs, events (tick clock order w) = events w ++ evs /\
               disconnects id evs = 1%nat) /\
  connectedClients (tick clock order w) !! id = None /\
  registry (tick clock order w) = registry w.
Proof.
  intros [Hnd Hkeys] Hid Hsilent.
  assert (Hin : id ∈ order) by (apply Hkeys; eauto).
  apply list_elem_of_split in Hin as (before & after & ->).
  apply NoDup_app in Hnd as (_ & Hbefore & Hafter).
  apply NoDup_cons in Hafter as [Hafter _].
  assert (Hnb : id ∉ before).
  { intros Hb. apply (Hbefore _ Hb). by left. }
  split_and!; [| |apply tick_registry].
  - unfold tick. rewrite fold_left_app. cbn [fold_left].
    destruct (tick_elsewhere clock before w id Hnb)
      as (Hl1 & Hr1 & evs1 & He1 & Hd1).
    fold (tick clock before w).
    set (w1 := tick clock before w) in *.
    destruct (visit_silent clock w1 id info) as [Hl2 He2].
    { by rewrite Hl1. }
    { by apply Hsilent. }
    destruct (tick_elsewhere clock after (visit clock w1 id) id Hafter)
      as (_ & _ & evs3 & He3 & Hd3).
    unfold tick in He3. rewrite He3, He2, He1.
    exists (evs1 ++ [ClientDisconnectEvent id] ++ evs3). split.
    + by rewrite <- !app_assoc.
    + rewrite !disconnects_app, Hd1, Hd3.
      assert (disconnects id [ClientDisconnectEvent id] = 1%nat) as ->; [|done].
      unfold disconnects. by rewrite filter_cons_True.
  - unfold tick. rewrite fold_left_app. cbn [fold_left].
    fold (tick clock before w).
    destruct (tick_elsewhere clock before w id Hnb) as (Hl1 & Hr1 & _).
    destruct (visit_silent clock (tick clock before w) id info) as [Hl2 _].
    { by rewrite Hl1. }
    { by apply Hsilent. }
    destruct (tick_elsewhere clock after
                (visit clock (tick clock before w) id) id Hafter)
      as (Hl3 & _).
    unfold tick in Hl3 at 1. by rewrite Hl3.
Qed.

(** After a whole pass every tracked identity is registered, whatever
    the tables looked like before. *)
Lemma tick_restores_cover (order : list string) (w : World A) :
  rangeOrder order w -> trackedAreRegistered (tick clock order w).
Proof.
  intros [Hnd Hkeys] id Hid. rewrite tick_registry.
  assert (Hin : id ∈ order) by (by eapply Hkeys, tick_tracked).
  apply list_elem_of_split in Hin as (before & after & ->).
  apply NoDup_app in Hnd as (_ & _ & Hafter).
  apply NoDup_cons in Hafter as [Hafter _].
  unfold tick in Hid. rewrite fold_left_app in Hid. cbn [fold_left] in Hid.
  destruct (tick_elsewhere clock after
              (visit clock (fold_left (visit clock) before w) id) id Hafter)
    as (Hl & _).
  unfold tick in Hl. rewrite Hl in Hid.
  apply visit_survivor in Hid.
  by rewrite <- (tick_registry clock before w).
Qed.

End Timeout.

(** ** The inbound message handler *)

(** Steps that recur in the case analysis of [dispatch]: a path that
    panics gives no result; a path that falls through gives its state and
    reply; the relay branch is the same for every kind of envelope. *)
Ltac no_result := intros [|[? ?]]; discriminate.

Ltac fell_through :=
  let res := fresh "res" in
  intros [|[res [= <- <-]]]; [discriminate|].

Ltac relay_or_local Distributor w msg :=
  cbn [ID SignalReceived setSignalled]; case_decide;
  [ destruct (Distributor && negb (sliceable (message.RecipientID (header msg))));
    [no_result|];
    unfold GetClient; cbn;
    destruct (registry w !! message.RecipientID (header msg));
    [ intros [[= <-]|[? ?]]; [done|discriminate]
    | by fell_through ]
  | destruct Distributor; [no_result|] ].

Section Handler.

Context {A : Type} `{!ApplicationLayer A}.
Variable Distributor : bool.
Variable clock : nat -> time.Time.

Implicit Types (w : World A) (c : net.ptr) (msg : Msg).

Lemma insert_tracked (m : gmap string ConnectedClientInfo) k info info' id :
  m !! k = Some info ->
  is_Some (<[k := info']> m !! id) <-> is_Some (m !! id).
Proof.
  intros Hk. destruct (decide (k = id)) as [->|Hne].
  - rewrite lookup_insert_eq, Hk. split; eauto.
  - by rewrite lookup_insert_ne.
Qed.

(** What the first part of the handler does to the two tables and to the
    identity of the instance, on every path that does not panic. *)
Lemma dispatch_tables c msg w :
  forall w',
    (dispatch Distributor clock c msg w = Returned w' \/
     exists res, dispatch Distributor clock c msg w = Fell w' res) ->
    ID w' = ID w /\
    (forall id, is_Some (connectedClients w' !! id) <->
                is_Some (connectedClients w !! id)) /\
    registry w' =
      match body msg with
      | DisconnectMessage => delete (net.ID (deref w c)) (registry w)
      | _ => registry w
      end.
Proof.
  intros w'. unfold dispatch.
  destruct (Distributor && negb (sliceable (message.SenderID (header msg))));
    [no_result|].
  destruct (body msg) eqn:Hb;
    [by fell_through| relay_or_local Distributor w msg..].
  - unfold onHeartbeat. cbn.
    destruct (connectedClients w !! message.SenderID (header msg)) eqn:Hs;
      fell_through; [|done].
    cbn. split_and!; [done| |done]. intros id. by eapply insert_tracked.
  - unfold onHeartbeatReply. cbn. case_decide; [|congruence].
    destruct (connectedClients w !! message.SenderID (header msg)) eqn:Hs;
      fell_through; [|done].
    cbn. split_and!; [done| |done]. intros id.
    rewrite insert_insert_eq. by eapply insert_tracked.
  - unfold process. cbn. destruct (ProcessMessage _ _ _) as [r a].
    by fell_through.
  - unfold process. cbn. destruct (ProcessMessage _ _ _) as [r a].
    by fell_through.
Qed.

(** A path that falls through to the reply stage has sent nothing yet. *)
Lemma dispatch_fell_sent c msg w w' res :
  dispatch Distributor clock c msg w = Fell w' res -> sent w' = sent w.
Proof.
  unfold dispatch.
  destruct (Distributor && negb (sliceable (message.SenderID (header msg))));
    [discriminate|].
  destruct (body msg) eqn:Hb; [by intros [= <- <-]|..];
    (cbn [ID SignalReceived setSignalled]; case_decide;
     [ destruct (Distributor
                 && negb (sliceable (message.RecipientID (header msg))));
       [discriminate|];
       unfold GetClient; cbn;
       destruct (registry w !! message.RecipientID (header msg));
       [discriminate | by intros [= <- <-]]
     | destruct Distributor; [discriminate|] ]).
  - unfold onHeartbeat. cbn.
    by destruct (connectedClients w !! message.SenderID (header msg));
      intros [= <- <-].
  - unfold onHeartbeatReply. cbn. case_decide; [|congruence].
    by destruct (connectedClients w !! message.SenderID (header msg));
      intros [= <- <-].
  - unfold process. cbn. destruct (ProcessMessage _ _ _) as [r a].
    by intros [= <- <-].
  - unfold process. cbn. destruct (ProcessMessage _ _ _) as [r a].
    by intros [= <- <-].
Qed.

Lemma respond_tables c h res w :
  ID (respond c h res w) = ID w /\
  connectedClients (respond c h res w) = connectedClients w /\
  registry (respond c h res w) = registry w.
Proof. by destruct res. Qed.

(** C3, as amended: in a run in which the debug output of a distributor
    does not fail (the instance is not a distributor, or the sender
    identity of the envelope has at least four bytes), a
    [DisconnectMessage] raises one disconnect event for the identity of
    the connection it arrived on and removes that identity from the
    connection registry; the liveness table is left unchanged and nothing
    is sent. *)
Theorem disconnect_leaves_tracker c msg w :
  body msg = DisconnectMessage ->
  (Distributor = true ->
   sliceable (message.SenderID (header msg)) = true) ->
  exists w',
    handleMessage Distributor clock c msg w = Done w' /\
    events w' = events w ++ [ClientDisconnectEvent (net.ID (deref w c))] /\
    registry w' = delete (net.ID (deref w c)) (registry w) /\
    registry w' !! net.ID (deref w c) = None /\
    connectedClients w' = connectedClients w /\
    sent w' = sent w.
Proof.
  intros Hb Hprint. unfold handleMessage, dispatch. rewrite Hb.
  assert (Distributor && negb (sliceable (message.SenderID (header msg)))
          = false) as ->.
  { destruct Distributor; [|done]. by rewrite Hprint. }
  eexists. split; [done|]. cbn. split_and!; try done.
  apply lookup_delete_eq.
Qed.

(** C4, as amended: on an instance that is not a distributor, a
    [HeartbeatReplyMessage] addressed to the instance from a tracked
    sender refreshes the sender's last-heartbeat time, appends exactly
    one sample (the time since the send time recorded for the sequence
    number, the zero time if none is recorded) and sends nothing; the
    pending send times are left as they were. *)
Theorem heartbeat_reply_records_sample c msg w seq info :
  Distributor = false ->
  body msg = HeartbeatReplyMessage seq ->
  message.RecipientID (header msg) = ID w ->
  connectedClients w !! message.SenderID (header msg) = Some info ->
  exists w',
    handleMessage Distributor clock c msg w = Done w' /\
    connectedClients w' =
      <[message.SenderID (header msg) :=
          {| LastHeartbeat := clock (reads w);
             HeartbeatSendTimes := HeartbeatSendTimes info;
             RTTs := RTTs info ++
               [time.Sub (clock (S (reads w)))
                  (default time.zeroTime (HeartbeatSendTimes info !! seq))]
          |}]> (connectedClients w) /\
    sent w' = sent w /\
    registry w' = registry w.
Proof.
  intros -> Hb Hr Hs. unfold handleMessage, dispatch. rewrite Hb. cbn.
  case_decide; [congruence|]. unfold onHeartbeatReply. cbn.
  case_decide; [|congruence]. rewrite Hs. cbn.
  eexists. split; [done|]. cbn. by rewrite insert_insert_eq.
Qed.

(** Forwarding, for runs in which the debug output of a distributor
    does not fail: the envelope goes to the recipient's connection as it
    came in, nothing else is sent, and the application layer is not
    called. *)
Lemma forward_unmodified c msg w recipient :
  body msg <> DisconnectMessage ->
  message.RecipientID (header msg) <> ID w ->
  registry w !! message.RecipientID (header msg) = Some recipient ->
  printable Distributor msg ->
  exists w',
    handleMessage Distributor clock c msg w = Done w' /\
    sent w' = sent w ++ [(recipient, msg)] /\
    processed w' = processed w /\
    events w' = events w /\
    app w' = app w /\
    connectedClients w' = connectedClients w /\
    registry w' = registry w.
Proof.
  intros Hb Hr Hreg Hprint. unfold handleMessage, dispatch, GetClient.
  assert (Distributor && negb (sliceable (message.SenderID (header msg)))
          = false) as ->.
  { destruct Distributor; [|done]. by destruct Hprint as [-> _]. }
  assert (Distributor && negb (sliceable (message.RecipientID (header msg)))
          = false) as ->.
  { destruct Distributor; [|done]. by destruct Hprint as [_ ->]. }
  destruct (body msg); [done|..]; cbn;
    (case_decide; [|done]); rewrite Hreg; by eexists.
Qed.

(** The error path, for runs in which the debug output of a distributor
    does not fail: exactly one envelope is sent, on the connection the
    request came from; it is an [ErrorMessage] with the text
    "Invalid recipient", addressed to the sender of the request. *)
Lemma invalid_recipient_reported c msg w :
  body msg <> DisconnectMessage ->
  message.RecipientID (header msg) <> ID w ->
  registry w !! message.RecipientID (header msg) = None ->
  printable Distributor msg ->
  exists w',
    handleMessage Distributor clock c msg w = Done w' /\
    sent w' = sent w ++
      [(c, {| header := replyHeader (ID w) msg;
              body := ErrorMessage "Invalid recipient" |})] /\
    processed w' = processed w /\
    events w' = events w /\
    connectedClients w' = connectedClients w /\
    registry w' = registry w.
Proof.
  intros Hb Hr Hreg Hprint. unfold handleMessage, dispatch, GetClient.
  assert (Distributor && negb (sliceable (message.SenderID (header msg)))
          = false) as ->.
  { destruct Distributor; [|done]. by destruct Hprint as [-> _]. }
  assert (Distributor && negb (sliceable (message.RecipientID (header msg)))
          = false) as ->.
  { destruct Distributor; [|done]. by destruct Hprint as [_ ->]. }
  destruct (body msg); [done|..]; cbn;
    (case_decide; [|done]); rewrite Hreg; by eexists.
Qed.

(** C7: whenever the first part of the handler falls through to the
    reply stage with candidate reply [res], the handler completes; for a
    non-nil [res] it has sent exactly one envelope, on the connection the
    request came from, with the recipient set to the sender of the
    request, the sender set to this instance, the message id of the
    request (empty when the request had none) and the body of the reply,
    an error value being turned into an [ErrorMessage] of its text; for a
    nil [res] it has sent nothing.  The reply stage changes nothing
    else. *)
Theorem reply_is_stamped_and_sent c msg w w1 res :
  dispatch Distributor clock c msg w = Fell w1 res ->
  exists w',
    handleMessage Distributor clock c msg w = Done w' /\
    match res with
    | None => sent w' = sent w /\ w' = w1
    | Some r =>
        exists m,
          sent w' = sent w ++ [(c, m)] /\
          message.RecipientID (header m) = message.SenderID (header msg) /\
          message.SenderID (header m) = ID w /\
          message.MessageID (header m) = message.MessageID (header msg) /\
          body m = replyBody r /\
          w' = setSent (sent w ++ [(c, m)]) w1
    end.
Proof.
  intros Hd. unfold handleMessage. rewrite Hd.
  pose proof (dispatch_fell_sent c msg w w1 res Hd) as Hsent.
  eexists. split; [done|].
  destruct res as [r|]; [|done]. cbn.
  destruct (dispatch_tables c msg w w1) as (HID & _); [eauto|].
  eexists. split; [by rewrite Hsent|]. cbn. rewrite HID, <- Hsent.
  by destruct r.
Qed.

(** The candidate reply of an envelope that is handed to the application
    layer is what [ProcessMessage] returned for it. *)
Lemma application_reply c msg w payload :
  Distributor = false ->
  body msg = Application payload ->
  message.RecipientID (header msg) = ID w ->
  exists w1,
    dispatch Distributor clock c msg w
      = Fell w1 (ProcessMessage c msg (app w)).1 /\
    processed w1 = processed w ++ [(c, msg)] /\
    sent w1 = sent w.
Proof.
  intros -> Hb Hr. unfold dispatch. rewrite Hb. cbn.
  case_decide; [congruence|]. unfold process. cbn.
  destruct (ProcessMessage c msg (app w)) as [r a]. by eexists.
Qed.

(** C9, as amended: on an instance that is not a distributor, a
    [HeartbeatMessage] addressed to the instance from a tracked sender
    refreshes the sender's last-heartbeat time, stores the millisecond
    count of the sender's mean round-trip time in [Distance] of the
    connection the envelope arrived on, raises the heartbeat event with
    the metadata received and sends back one [HeartbeatReplyMessage]
    with the sequence number received. *)
Theorem heartbeat_from_tracked_peer c msg w seq metadata info :
  Distributor = false ->
  body msg = HeartbeatMessage seq metadata ->
  message.RecipientID (header msg) = ID w ->
  connectedClients w !! message.SenderID (header msg) = Some info ->
  exists w',
    handleMessage Distributor clock c msg w = Done w' /\
    connectedClients w' =
      <[message.SenderID (header msg) :=
          withLastHeartbeat (clock (reads w)) info]> (connectedClients w) /\
    deref w' c =
      net.withDistance (time.Milliseconds (GetMeanRTT info)) (deref w c) /\
    events w' = events w ++ [HeartbeatEvent metadata] /\
    sent w' = sent w ++
      [(c, {| header := replyHeader (ID w) msg;
              body := HeartbeatReplyMessage seq |})].
Proof.
  intros -> Hb Hr Hs. unfold handleMessage, dispatch. rewrite Hb. cbn.
  case_decide; [congruence|]. unfold onHeartbeat. cbn. rewrite Hs. cbn.
  eexists. split; [done|]. cbn. split_and!; try done.
  unfold deref. cbn. by rewrite lookup_total_insert_eq.
Qed.

(** C10, as amended: on an instance that is not a distributor, a
    [HeartbeatMessage] addressed to the instance from a sender that is
    not tracked still raises the heartbeat event and still sends back
    one [HeartbeatReplyMessage] with the sequence number received; the
    liveness table, the client objects and the clock are left alone. *)
Theorem heartbeat_from_untracked_peer c msg w seq metadata :
  Distributor = false ->
  body msg = HeartbeatMessage seq metadata ->
  message.RecipientID (header msg) = ID w ->
  connectedClients w !! message.SenderID (header msg) = None ->
  exists w',
    handleMessage Distributor clock c msg w = Done w' /\
    connectedClients w' = connectedClients w /\
    heap w' = heap w /\
    reads w' = reads w /\
    events w' = events w ++ [HeartbeatEvent metadata] /\
    sent w' = sent w ++
      [(c, {| header := replyHeader (ID w) msg;
              body := HeartbeatReplyMessage seq |})].
Proof.
  intros -> Hb Hr Hs. unfold handleMessage, dispatch. rewrite Hb. cbn.
  case_decide; [congruence|]. unfold onHeartbeat. cbn. rewrite Hs.
  by eexists.
Qed.

(** A distributor panics on every envelope that is addressed to it and
    is not a [DisconnectMessage]. *)
Lemma distributor_panics_when_addressed c msg w :
  Distributor = true ->
  body msg <> DisconnectMessage ->
  message.RecipientID (header msg) = ID w ->
  handleMessage Distributor clock c msg w = Panic.
Proof.
  intros -> Hb Hr. unfold handleMessage, dispatch.
  destruct (sliceable (message.SenderID (header msg))); cbn; [|done].
  destruct (body msg); [done|..]; cbn; by (case_decide; [congruence|]).
Qed.

(** C5, as amended: the inclusion of the liveness table in the registry
    is kept by [EndHeartbeats], by [EndAllHeartbeats], by a pass of the
    scheduler, by the handling of every envelope that is not a
    [DisconnectMessage], by [BeginHeartbeats] for a registered identity
    and by a [DisconnectMessage] on the connection of an identity that
    is not tracked. *)
Theorem cover_preserved (op : Operation) w w' :
  coverSafe op w ->
  trackedAreRegistered w ->
  perform Distributor clock op w = Done w' ->
  trackedAreRegistered w'.
Proof.
  intros Hsafe Hinv Hstep id.
  destruct op as [k|k| |order|c msg]; cbn in Hstep, Hsafe.
  - injection Hstep as <-. cbn. destruct (decide (k = id)) as [->|Hne].
    + by intros _.
    + rewrite lookup_insert_ne by done. apply Hinv.
  - injection Hstep as <-. cbn. destruct (decide (k = id)) as [->|Hne].
    + rewrite lookup_delete_eq. by intros [? ?].
    + rewrite lookup_delete_ne by done. apply Hinv.
  - injection Hstep as <-. cbn. rewrite lookup_empty. by intros [? ?].
  - injection Hstep as <-. rewrite tick_registry.
    intros Hid. by eapply Hinv, tick_tracked.
  - unfold handleMessage in Hstep.
    destruct (dispatch Distributor clock c msg w) as [|w1|w1 res] eqn:Hd;
      [done|..]; injection Hstep as <-.
    + destruct (dispatch_tables c msg w w1) as (_ & Hcc & Hreg); [eauto|].
      rewrite Hcc, Hreg. intros Hid.
      destruct (body msg) eqn:Hb; try by apply Hinv.
      unfold dispatch in Hd. rewrite Hb in Hd.
      by destruct (_ && _).
    + destruct (dispatch_tables c msg w w1) as (_ & Hcc & Hreg); [eauto|].
      destruct (respond_tables c (header msg) res w1) as (_ & -> & ->).
      rewrite Hcc, Hreg. intros Hid.
      destruct (body msg) eqn:Hb; try by apply Hinv.
      destruct (decide (net.ID (deref w c) = id)) as [<-|Hne].
      * rewrite Hsafe in Hid by done. by destruct Hid.
      * rewrite lookup_delete_ne by done. by apply Hinv.
Qed.

End Handler.

(** * The properties at concrete inputs *)

Lemma rangeOrder_worldPeer : rangeOrder ["peer"] worldPeer.
Proof.
  split; [apply NoDup_singleton|]. intros id. cbn.
  rewrite list_elem_of_singleton. split.
  - intros ->. by rewrite lookup_singleton_eq.
  - intros [info Hid]. by apply lookup_singleton_Some in Hid as [-> _].
Qed.

Lemma clockAt3s_silent n :
  timeoutInterval <= time.Sub (clockAt3s n) (LastHeartbeat infoIdle).
Proof. by vm_compute. Qed.

(** C2 fails as stated: ["peer"] is tracked and registered and has been
    silent for three seconds; after the pass of the scheduler it is still
    in the connection registry. *)
Lemma timeout_keeps_registry_entry :
  rangeOrder ["peer"] worldPeer /\
  connectedClients worldPeer !! "peer" = Some infoIdle /\
  timeoutInterval <= time.Sub (clockAt3s 0) (LastHeartbeat infoIdle) /\
  connectedClients (tick clockAt3s ["peer"] worldPeer) !! "peer" = None /\
  registry (tick clockAt3s ["peer"] worldPeer) !! "peer" = Some 1%positive.
Proof. split; [apply rangeOrder_worldPeer|]. by vm_compute. Qed.

Lemma tick_evicts_silent_peer_witness :
  rangeOrder ["peer"] worldPeer /\
  connectedClients worldPeer !! "peer" = Some infoIdle /\
  ((exists evs,
      events (tick clockAt3s ["peer"] worldPeer) = events worldPeer ++ evs /\
      disconnects "peer" evs = 1%nat) /\
   connectedClients (tick clockAt3s ["peer"] worldPeer) !! "peer" = None /\
   registry (tick clockAt3s ["peer"] worldPeer) = registry worldPeer).
Proof.
  split; [apply rangeOrder_worldPeer|]. split; [reflexivity|].
  apply (tick_evicts_silent_peer clockAt3s ["peer"] worldPeer "peer" infoIdle).
  - apply rangeOrder_worldPeer.
  - reflexivity.
  - intros n _. apply clockAt3s_silent.
Defined.

(** C3 fails as stated: after the [DisconnectMessage] of the tracked peer
    ["peer"] has been handled, ["peer"] is gone from the registry and is
    still in the liveness table. *)
Lemma disconnect_keeps_tracker_entry :
  exists w',
    handleMessage false clockAt3s 1%positive
      (fromPeer "self" DisconnectMessage) worldPeer = Done w' /\
    registry w' !! "peer" = None /\
    connectedClients w' !! "peer" = Some infoIdle.
Proof. eexists. by vm_compute. Qed.

(** The deferred clean-up at work: the next pass of the scheduler finds
    the registry lookup of ["peer"] failing, evicts the record and raises
    the disconnect event a second time. *)
Example disconnect_then_tick_raises_twice :
  exists w',
    handleMessage false clockAt3s 1%positive
      (fromPeer "self" DisconnectMessage) worldPeer = Done w' /\
    rangeOrder ["peer"] w' /\
    events (tick clockAt3s ["peer"] w')
      = [ClientDisconnectEvent "peer"; ClientDisconnectEvent "peer"] /\
    connectedClients (tick clockAt3s ["peer"] w') !! "peer" = None.
Proof.
  eexists. split; [reflexivity|]. split; [|by vm_compute].
  apply rangeOrder_worldPeer.
Qed.

Lemma disconnect_leaves_tracker_witness :
  body (fromPeer "self" DisconnectMessage) = DisconnectMessage /\
  exists w',
    handleMessage true clockAt3s 1%positive
      (fromPeer "self" DisconnectMessage) worldPeer = Done w' /\
    events w' = events worldPeer ++ [ClientDisconnectEvent "peer"] /\
    registry w' = delete "peer" (registry worldPeer) /\
    registry w' !! "peer" = None /\
    connectedClients w' = connectedClients worldPeer /\
    sent w' = sent worldPeer.
Proof.
  split; [reflexivity|].
  apply (disconnect_leaves_tracker true clockAt3s 1%positive
           (fromPeer "self" DisconnectMessage) worldPeer).
  - reflexivity.
  - intros _. reflexivity.
Defined.

(** C4 fails as stated: the reply to heartbeat [7] leaves the send time
    recorded for [7] in place (and appends the sample); on a distributor
    the handler panics instead. *)
Lemma heartbeat_reply_keeps_pending_entry :
  (exists w' info',
     handleMessage false clockAt3s 1%positive
       (fromPeer "self" (HeartbeatReplyMessage 7)) worldPeer = Done w' /\
     connectedClients w' !! "peer" = Some info' /\
     HeartbeatSendTimes info' !! 7 = Some (2900 * time.Millisecond) /\
     RTTs info' = [100 * time.Millisecond]) /\
  sliceable "peer" = true /\
  handleMessage true clockAt3s 1%positive
    (fromPeer "self" (HeartbeatReplyMessage 7)) worldPeer = Panic.
Proof. split; [|by vm_compute]. do 2 eexists. by vm_compute. Qed.

Lemma heartbeat_reply_records_sample_witness :
  connectedClients worldPeer !! "peer" = Some infoIdle /\
  exists w',
    handleMessage false clockAt3s 1%positive
      (fromPeer "self" (HeartbeatReplyMessage 7)) worldPeer = Done w' /\
    connectedClients w' =
      <["peer" :=
          {| LastHeartbeat := clockAt3s (reads worldPeer);
             HeartbeatSendTimes := HeartbeatSendTimes infoIdle;
             RTTs := RTTs infoIdle ++
               [time.Sub (clockAt3s (S (reads worldPeer)))
                  (default time.zeroTime (HeartbeatSendTimes infoIdle !! 7))]
          |}]> (connectedClients worldPeer) /\
    sent w' = sent worldPeer /\
    registry w' = registry worldPeer.
Proof.
  split; [reflexivity|].
  apply (heartbeat_reply_records_sample false clockAt3s 1%positive
           (fromPeer "self" (HeartbeatReplyMessage 7)) worldPeer 7 infoIdle);
    reflexivity.
Defined.

Lemma trackedAreRegistered_worldPeer : trackedAreRegistered worldPeer.
Proof.
  intros id [info Hid]. cbn in *.
  apply lookup_singleton_Some in Hid as [<- _].
  by rewrite lookup_singleton_eq.
Qed.

Lemma trackedAreRegistered_worldEmpty : trackedAreRegistered worldEmpty.
Proof. intros id [info Hid]. cbn in Hid. by rewrite lookup_empty in Hid. Qed.

(** C5 fails as stated: [BeginHeartbeats] for an identity that never
    connected, and the [DisconnectMessage] of a tracked peer, both lead
    from a state in which the inclusion holds to one in which a tracked
    identity has no registry entry. *)
Lemma cover_broken_by_begin_and_disconnect :
  (trackedAreRegistered worldEmpty /\
   exists w',
     perform false clockAt3s (OpBeginHeartbeats "ghost") worldEmpty = Done w' /\
     ~ trackedAreRegistered w') /\
  (trackedAreRegistered worldPeer /\
   exists w',
     perform false clockAt3s
       (OpHandleMessage 1%positive (fromPeer "self" DisconnectMessage))
       worldPeer = Done w' /\
     ~ trackedAreRegistered w').
Proof.
  split; (split; [auto using trackedAreRegistered_worldEmpty,
                    trackedAreRegistered_worldPeer|]).
  - eexists. split; [reflexivity|]. intros Hcover.
    destruct (Hcover "ghost") as [p Hp]; [by apply mk_is_Some with (x := {| LastHeartbeat := clockAt3s 0; HeartbeatSendTimes := ∅; RTTs := [] |}); vm_compute|].
    by vm_compute in Hp.
  - eexists. split; [reflexivity|]. intros Hcover.
    destruct (Hcover "peer") as [p Hp]; [by exists infoIdle; vm_compute|].
    by vm_compute in Hp.
Qed.

Lemma cover_preserved_witness :
  coverSafe (OpBeginHeartbeats "peer") worldPeer /\
  trackedAreRegistered worldPeer /\
  trackedAreRegistered (BeginHeartbeats clockAt3s "peer" worldPeer).
Proof.
  split; [by exists 1%positive|]. split; [apply trackedAreRegistered_worldPeer|].
  apply (cover_preserved false clockAt3s (OpBeginHeartbeats "peer") worldPeer).
  - by exists 1%positive.
  - apply trackedAreRegistered_worldPeer.
  - reflexivity.
Defined.

(** C6, at an input where the code departs from it: on a distributor an
    envelope for the registered peer ["dest"] whose sender identity has
    one byte makes the handler panic in its debug output, before anything
    is forwarded; the same envelope is forwarded as it is when the flag is
    off. *)
Theorem forward_panics_on_short_sender :
  body (fromShort "dest" (Application "hello")) <> DisconnectMessage /\
  message.RecipientID (header (fromShort "dest" (Application "hello")))
    <> ID worldTwoPeers /\
  registry worldTwoPeers !! "dest" = Some 2%positive /\
  handleMessage true clockAt3s 1%positive
    (fromShort "dest" (Application "hello")) worldTwoPeers = Panic /\
  exists w',
    handleMessage false clockAt3s 1%positive
      (fromShort "dest" (Application "hello")) worldTwoPeers = Done w' /\
    sent w' = [(2%positive, fromShort "dest" (Application "hello"))].
Proof. split_and!; try by vm_compute. by eexists. Qed.

(** C7 where the application layer turns a request down: the error value
    goes back to ["peer"] as a stamped [ErrorMessage]. *)
Lemma reply_is_stamped_and_sent_witness :
  dispatch false clockAt3s 1%positive joinRequest worldBusy
    = Fell worldBusyAsked (Some (ReplyErr "lobby full")) /\
  exists w',
    handleMessage false clockAt3s 1%positive joinRequest worldBusy = Done w' /\
    exists m,
      sent w' = sent worldBusy ++ [(1%positive, m)] /\
      message.RecipientID (header m) = message.SenderID (header joinRequest) /\
      message.SenderID (header m) = ID worldBusy /\
      message.MessageID (header m) = message.MessageID (header joinRequest) /\
      body m = replyBody (ReplyErr "lobby full") /\
      w' = setSent (sent worldBusy ++ [(1%positive, m)]) worldBusyAsked.
Proof.
  split; [reflexivity|].
  apply (reply_is_stamped_and_sent false clockAt3s 1%positive joinRequest
           worldBusy worldBusyAsked (Some (ReplyErr "lobby full"))).
  reflexivity.
Defined.

(** C8, at an input where the code departs from it: on a distributor an
    envelope for the unknown identity ["nobody"] whose sender identity has
    one byte makes the handler panic in its debug output, and no error
    envelope is sent; with the flag off the error envelope goes out. *)
Theorem invalid_recipient_panics_on_short_sender :
  body (fromShort "nobody" (Application "hello")) <> DisconnectMessage /\
  message.RecipientID (header (fromShort "nobody" (Application "hello")))
    <> ID worldPeer /\
  registry worldPeer !! "nobody" = None /\
  handleMessage true clockAt3s 1%positive
    (fromShort "nobody" (Application "hello")) worldPeer = Panic /\
  exists w',
    handleMessage false clockAt3s 1%positive
      (fromShort "nobody" (Application "hello")) worldPeer = Done w' /\
    sent w' =
      [(1%positive,
        {| header := {| message.SenderID := "self";
                        message.RecipientID := "x";
                        message.MessageID := "m-43" |};
           body := ErrorMessage "Invalid recipient" |})].
Proof. split_and!; try by vm_compute. by eexists. Qed.

(** C9 fails as stated: a distributor panics on a heartbeat addressed to
    it, although the sender is tracked (and its identity long enough for
    the debug output). *)
Lemma distributor_panics_on_heartbeat :
  sliceable "peer" = true /\
  message.RecipientID (header (fromPeer "self" (HeartbeatMessage 5 "M")))
    = ID worldPeer /\
  connectedClients worldPeer !! "peer" = Some infoIdle /\
  handleMessage true clockAt3s 1%positive
    (fromPeer "self" (HeartbeatMessage 5 "M")) worldPeer = Panic.
Proof. by vm_compute. Qed.

Lemma heartbeat_from_tracked_peer_witness :
  connectedClients worldPeer !! "peer" = Some infoIdle /\
  exists w',
    handleMessage false clockAt3s 1%positive
      (fromPeer "self" (HeartbeatMessage 5 "M")) worldPeer = Done w' /\
    connectedClients w' =
      <["peer" := withLastHeartbeat (clockAt3s (reads worldPeer)) infoIdle]>
        (connectedClients worldPeer) /\
    deref w' 1%positive =
      net.withDistance (time.Milliseconds (GetMeanRTT infoIdle))
        (deref worldPeer 1%positive) /\
    events w' = events worldPeer ++ [HeartbeatEvent "M"] /\
    sent w' = sent worldPeer ++
      [(1%positive,
        {| header := replyHeader (ID worldPeer)
                       (fromPeer "self" (HeartbeatMessage 5 "M"));
           body := HeartbeatReplyMessage 5 |})].
Proof.
  split; [reflexivity|].
  apply (heartbeat_from_tracked_peer false clockAt3s 1%positive
           (fromPeer "self" (HeartbeatMessage 5 "M")) worldPeer 5 "M" infoIdle);
    reflexivity.
Defined.

(** C10 fails as stated: a distributor panics on a heartbeat addressed to
    it from a sender that is not tracked (whose identity is long enough
    for the debug output). *)
Lemma distributor_panics_on_untracked_heartbeat :
  sliceable "peer" = true /\
  message.RecipientID (header (fromPeer "self" (HeartbeatMessage 5 "M")))
    = ID worldEmpty /\
  connectedClients worldEmpty !! "peer" = None /\
  handleMessage true clockAt3s 1%positive
    (fromPeer "self" (HeartbeatMessage 5 "M")) worldEmpty = Panic.
Proof. by vm_compute. Qed.

Lemma heartbeat_from_untracked_peer_witness :
  connectedClients worldEmpty !! "peer" = None /\
  exists w',
    handleMessage false clockAt3s 1%positive
      (fromPeer "self" (HeartbeatMessage 5 "M")) worldEmpty = Done w' /\
    connectedClients w' = connectedClients worldEmpty /\
    heap w' = heap worldEmpty /\
    reads w' = reads worldEmpty /\
    events w' = events worldEmpty ++ [HeartbeatEvent "M"] /\
    sent w' = sent worldEmpty ++
      [(1%positive,
        {| header := replyHeader (ID worldEmpty)
                       (fromPeer "self" (HeartbeatMessage 5 "M"));
           body := HeartbeatReplyMessage 5 |})].
Proof.
  split; [reflexivity|].
  apply (heartbeat_from_untracked_peer false clockAt3s 1%positive
           (fromPeer "self" (HeartbeatMessage 5 "M")) worldEmpty 5 "M");
    reflexivity.
Defined.

(** * Further properties of the code *)

(** ** The rolling mean *)

Section MeanRTTWindow.

Implicit Types (rtts : list time.Duration) (c : ConnectedClientInfo).

Lemma recent_nil_inv k rtts : recent (S k) rtts = [] -> rtts = [].
Proof.
  unfold recent. destruct (reverse rtts) as [|d l] eqn:E; [|done].
  intros _. apply (f_equal reverse) in E. by rewrite reverse_involutive in E.
Qed.

(** Two histories with the same window give the same mean. *)
Lemma GetMeanRTT_window_ext c c' :
  recent (S (Z.to_nat rttAverageNum)) (RTTs c)
    = recent (S (Z.to_nat rttAverageNum)) (RTTs c') ->
  GetMeanRTT c = GetMeanRTT c'.
Proof.
  intros Hw. rewrite !GetMeanRTT_window, <- Hw.
  destruct (RTTs c) as [|d l] eqn:E, (RTTs c') as [|d' l'] eqn:E'; try done.
  - symmetry in Hw. by apply recent_nil_inv in Hw.
  - by apply recent_nil_inv in Hw.
Qed.

Lemma recent_app_full k old win :
  length win = k -> recent k (old ++ win) = recent k win.
Proof.
  intros Hk. unfold recent. rewrite reverse_app.
  rewrite take_app_le by (rewrite length_reverse; lia).
  done.
Qed.

(** Samples older than the [rttAverageNum + 1] most recent ones have no
    influence on the mean: a history may be cut down to that window. *)
Theorem GetMeanRTT_forgets_old_samples c old win :
  RTTs c = old ++ win ->
  length win = S (Z.to_nat rttAverageNum) ->
  GetMeanRTT c =
    GetMeanRTT {| LastHeartbeat := LastHeartbeat c;
                  HeartbeatSendTimes := HeartbeatSendTimes c;
                  RTTs := win |}.
Proof.
  intros Hc Hlen. apply GetMeanRTT_window_ext. cbn [RTTs].
  rewrite Hc. by apply recent_app_full.
Qed.

Lemma sum_between (l : list Z) (lo hi acc : Z) :
  Forall (fun d => lo <= d <= hi) l ->
  acc + Z.of_nat (length l) * lo <= fold_left Z.add l acc
    <= acc + Z.of_nat (length l) * hi.
Proof.
  revert acc. induction l as [|d l IH]; intros acc Hl; cbn [fold_left length].
  - lia.
  - apply Forall_cons in Hl as [Hd Hl]. specialize (IH (acc + d) Hl). nia.
Qed.

(** The mean of a non-empty history of samples between [lo] and [hi]
    lies between [lo] and [hi]. *)
Lemma GetMeanRTT_between_aux c lo hi :
  0 <= lo -> hi <= 2 ^ 59 ->
  RTTs c <> [] ->
  Forall (fun d => lo <= d <= hi) (RTTs c) ->
  lo <= GetMeanRTT c <= hi.
Proof.
  intros Hlo Hhi Hne Hb.
  rewrite GetMeanRTT_mean_of_window; [|done|].
  2:{ eapply Forall_impl; [exact Hb|]. cbn. lia. }
  unfold meanOfRecent.
  set (window := recent (S (Z.to_nat rttAverageNum)) (RTTs c)).
  assert (Hw : Forall (fun d => lo <= d <= hi) window).
  { unfold window, recent. by apply Forall_take, Forall_reverse. }
  assert (Hn : 0 < Z.of_nat (length window)).
  { destruct window eqn:E; [|cbn [length]; lia].
    by apply recent_nil_inv in E. }
  set (n := Z.of_nat (length window)) in *.
  set (sum := fold_left Z.add window 0).
  assert (Hs : 0 + n * lo <= sum <= 0 + n * hi)
    by exact (sum_between window lo hi 0 Hw).
  clearbody n sum.
  assert (0 <= n * lo) by (apply Z.mul_nonneg_nonneg; lia).
  rewrite Z.quot_div_nonneg by lia. split.
  - apply Z.div_le_lower_bound; lia.
  - apply Z.div_le_upper_bound; lia.
Qed.

Theorem GetMeanRTT_between c lo hi :
  0 <= lo -> hi <= 2 ^ 59 ->
  RTTs c <> [] ->
  Forall (fun d => lo <= d <= hi) (RTTs c) ->
  lo <= GetMeanRTT c <= hi.
Proof. apply GetMeanRTT_between_aux. Qed.

(** With samples that are not negative, a negative result means exactly
    that there are no samples: the value returned for an empty history
    cannot be confused with a mean. *)
Theorem GetMeanRTT_negative_iff_empty c :
  Forall (fun d => 0 <= d <= 2 ^ 59) (RTTs c) ->
  GetMeanRTT c < 0 <-> RTTs c = [].
Proof.
  intros Hb. split.
  - intros Hneg. destruct (decide (RTTs c = [])) as [|Hne]; [done|].
    pose proof (GetMeanRTT_between_aux c 0 (2 ^ 59)
                  ltac:(lia) ltac:(lia) Hne Hb). lia.
  - intros Hnil. rewrite GetMeanRTT_window, Hnil. by vm_compute.
Qed.

(** The latency estimate stored on a connection is the conversion of an
    integer below [2^53] in magnitude, whatever the history holds. *)
Theorem Distance_estimate_exact c :
  - 2 ^ 53 < time.Milliseconds (GetMeanRTT c) < 2 ^ 53.
Proof. apply Milliseconds_exact, GetMeanRTT_range. Qed.

End MeanRTTWindow.

(** ** One pass of the scheduler, peer by peer *)

Section SchedulerPass.

Context {A : Type} `{!ApplicationLayer A}.
Variable clock : nat -> time.Time.

Implicit Types (w : World A) (id k : string) (order : list string).

(** The three ways an iteration can go: the identity is not tracked and
    nothing happens; a heartbeat is sent; the record is evicted. *)
Lemma visit_outcome w k :
  (connectedClients w !! k = None /\ visit clock w k = w) \/
  (exists info p,
     connectedClients w !! k = Some info /\
     registry w !! k = Some p /\
     time.Sub (clock (reads w)) (LastHeartbeat info) < timeoutInterval /\
     sent (visit clock w k) =
       sent w ++ [(p, NewHeartbeatMessage (net.Seq (deref w p))
                        (GetHeartbeatMetadata (app w)))] /\
     events (visit clock w k) = events w /\
     connectedClients (visit clock w k) =
       <[k := withSendTime (net.Seq (deref w p)) (clock (S (reads w))) info]>
         (connectedClients w) /\
     heap (visit clock w k) =
       <[p := net.withSeq (time.wrap64 (net.Seq (deref w p) + 1)) (deref w p)]>
         (heap w) /\
     reads (visit clock w k) = S (S (reads w))) \/
  (exists info,
     connectedClients w !! k = Some info /\
     (registry w !! k = None \/
      timeoutInterval <= time.Sub (clock (reads w)) (LastHeartbeat info)) /\
     sent (visit clock w k) = sent w /\
     events (visit clock w k) = events w ++ [ClientDisconnectEvent k] /\
     connectedClients (visit clock w k) = delete k (connectedClients w)).
Proof.
  unfold visit, GetClient.
  destruct (connectedClients w !! k) as [info|] eqn:Hk; [|by left].
  right. destruct (registry w !! k) as [p|] eqn:Hp; cbn.
  - destruct (Z.leb_spec timeoutInterval
                (time.Sub (clock (reads w)) (LastHeartbeat info))).
    + right. exists info. split_and!; auto.
    + left. exists info, p. split_and!; auto.
  - right. exists info. split_and!; auto.
Qed.




End SchedulerPass.

Section SchedulerPeers.

Context {A : Type} `{!ApplicationLayer A}.
Variable clock : nat -> time.Time.

Implicit Types (w : World A) (id k : string) (order : list string).

Lemma tick_app order1 order2 w :
  tick clock (order1 ++ order2) w = tick clock order2 (tick clock order1 w).
Proof. unfold tick. apply fold_left_app. Qed.


(** A peer that lost its registry entry is evicted by the next pass,
    with exactly one disconnect event, whatever the clock says. *)
Theorem tick_evicts_unregistered_peer order w id info :
  rangeOrder order w ->
  connectedClients w !! id = Some info ->
  registry w !! id = None ->
  (exists evs, events (tick clock order w) = events w ++ evs /\
               disconnects id evs = 1%nat) /\
  connectedClients (tick clock order w) !! id = None.
Proof.
  intros [Hnd Hkeys] Hid Hreg.
  assert (Hin : id ∈ order) by (apply Hkeys; eauto).
  apply list_elem_of_split in Hin as (before & after & ->).
  apply NoDup_app in Hnd as (_ & Hbefore & Hafter).
  apply NoDup_cons in Hafter as [Hafter _].
  assert (Hnb : id ∉ before).
  { intros Hb. apply (Hbefore _ Hb). by left. }
  rewrite tick_app. change (id :: after) with ([id] ++ after).
  rewrite tick_app.
  destruct (tick_elsewhere clock before w id Hnb) as (Hl1 & _ & evs1 & He1 & Hd1).
  set (w1 := tick clock before w) in *.
  assert (Hreg1 : registry w1 !! id = None).
  { unfold w1. by rewrite tick_registry. }
  change (tick clock [id] w1) with (visit clock w1 id).
  destruct (visit_outcome clock w1 id)
    as [[Hnone _]|[(i & p & _ & Hp & _)|(i & _ & _ & _ & He2 & Hc2)]];
    [congruence..|].
  destruct (tick_elsewhere clock after (visit clock w1 id) id Hafter)
    as (Hl3 & _ & evs3 & He3 & Hd3).
  split.
  - exists (evs1 ++ [ClientDisconnectEvent id] ++ evs3). split.
    + by rewrite He3, He2, He1, <- !app_assoc.
    + rewrite !disconnects_app, Hd1, Hd3.
      assert (disconnects id [ClientDisconnectEvent id] = 1%nat) as ->; [|done].
      unfold disconnects. by rewrite filter_cons_True.
  - by rewrite Hl3, Hc2, lookup_delete_eq.
Qed.


End SchedulerPeers.

(** ** What every completed call of the handler has done *)

Section HandlerEffects.

Context {A : Type} `{!ApplicationLayer A}.
Variable Distributor : bool.
Variable clock : nat -> time.Time.

Implicit Types (w : World A) (c : net.ptr) (msg : Msg).

(** The records of signals and of calls to [ProcessMessage] after the
    first part of the handler, on every path that does not panic. *)
Lemma dispatch_log c msg w :
  forall w',
    (dispatch Distributor clock c msg w = Returned w' \/
     exists res, dispatch Distributor clock c msg w = Fell w' res) ->
    signalled w' = signalled w ++ [(message.MessageID (header msg), msg)] /\
    processed w' =
      if handedToApplication (ID w) msg
      then processed w ++ [(c, msg)] else processed w.
Proof.
  intros w'. unfold dispatch, handedToApplication.
  destruct (Distributor && negb (sliceable (message.SenderID (header msg))));
    [no_result|].
  destruct (body msg) eqn:Hb.
  { fell_through. cbn. by rewrite andb_false_r. }
  all: cbn [ID SignalReceived setSignalled]; case_decide as Hr;
    [ rewrite bool_decide_eq_false_2 by done; cbn [andb];
      destruct (Distributor
                && negb (sliceable (message.RecipientID (header msg))));
      [no_result|];
      unfold GetClient; cbn;
      destruct (registry w !! message.RecipientID (header msg));
      [ intros [[= <-]|[? ?]]; [done|discriminate] | by fell_through ]
    | destruct Distributor; [no_result|];
      rewrite bool_decide_eq_true_2 by done; cbn [andb] ].
  - unfold onHeartbeat. cbn.
    by destruct (connectedClients w !! message.SenderID (header msg));
      fell_through.
  - unfold onHeartbeatReply. cbn. case_decide; [|congruence].
    by destruct (connectedClients w !! message.SenderID (header msg));
      fell_through.
  - unfold process. cbn. destruct (ProcessMessage _ _ _) as [r a].
    by fell_through.
  - unfold process. cbn. destruct (ProcessMessage _ _ _) as [r a].
    by fell_through.
Qed.

(** The early [return] is the forwarding of the envelope, unchanged, to
    the connection registered for its recipient. *)
Lemma dispatch_returned c msg w w' :
  dispatch Distributor clock c msg w = Returned w' ->
  exists recipient,
    registry w !! message.RecipientID (header msg) = Some recipient /\
    message.RecipientID (header msg) <> ID w /\
    sent w' = sent w ++ [(recipient, msg)].
Proof.
  unfold dispatch.
  destruct (Distributor && negb (sliceable (message.SenderID (header msg))));
    [discriminate|].
  destruct (body msg) eqn:Hb; [discriminate|..].
  all: cbn [ID SignalReceived setSignalled]; case_decide as Hr;
    [ destruct (Distributor
                && negb (sliceable (message.RecipientID (header msg))));
      [discriminate|];
      unfold GetClient; cbn;
      destruct (registry w !! message.RecipientID (header msg)) eqn:Hreg;
      [ intros [= <-]; by eexists | discriminate ]
    | destruct Distributor; [discriminate|] ].
  - unfold onHeartbeat. discriminate.
  - unfold onHeartbeatReply. cbn. by case_decide.
  - unfold process. cbn. by destruct (ProcessMessage _ _ _).
  - unfold process. cbn. by destruct (ProcessMessage _ _ _).
Qed.

Lemma respond_log c h res w :
  signalled (respond c h res w) = signalled w /\
  processed (respond c h res w) = processed w.
Proof. by destruct res. Qed.

(** Every call that completes has signalled the message id of the
    envelope exactly once, also when the envelope was only passed on to
    another peer or was a disconnect. *)
Theorem handleMessage_signals_once c msg w w' :
  handleMessage Distributor clock c msg w = Done w' ->
  signalled w' = signalled w ++ [(message.MessageID (header msg), msg)].
Proof.
  unfold handleMessage. intros Hdone.
  destruct (dispatch Distributor clock c msg w) as [|w1|w1 res] eqn:Hd;
    [done|..]; injection Hdone as <-.
  - by destruct (dispatch_log c msg w w1) as [-> _]; [eauto|].
  - destruct (respond_log c (header msg) res w1) as [-> _].
    by destruct (dispatch_log c msg w w1) as [-> _]; [eauto|].
Qed.

(** In every call that completes, [ProcessMessage] has been called once
    if the envelope is addressed to the instance and its kind is none of
    heartbeat, heartbeat reply and disconnect (an inbound [ErrorMessage]
    is among these), and not at all otherwise: forwarded envelopes never
    reach it. *)
Theorem handleMessage_application_calls c msg w w' :
  handleMessage Distributor clock c msg w = Done w' ->
  processed w' =
    if handedToApplication (ID w) msg
    then processed w ++ [(c, msg)] else processed w.
Proof.
  unfold handleMessage. intros Hdone.
  destruct (dispatch Distributor clock c msg w) as [|w1|w1 res] eqn:Hd;
    [done|..]; injection Hdone as <-.
  - by destruct (dispatch_log c msg w w1) as [_ ->]; [eauto|].
  - destruct (respond_log c (header msg) res w1) as [_ ->].
    by destruct (dispatch_log c msg w w1) as [_ ->]; [eauto|].
Qed.

(** The handler never starts or ends the tracking of a peer: the set of
    tracked identities is the same after every completed call, a
    disconnect included. *)
Theorem handleMessage_keeps_tracked_set c msg w w' :
  handleMessage Distributor clock c msg w = Done w' ->
  dom (connectedClients w') = dom (connectedClients w).
Proof.
  unfold handleMessage. intros Hdone.
  assert (Hiff : forall id, is_Some (connectedClients w' !! id) <->
                            is_Some (connectedClients w !! id)).
  { destruct (dispatch Distributor clock c msg w) as [|w1|w1 res] eqn:Hd;
      [done|..]; injection Hdone as <-.
    - by destruct (dispatch_tables Distributor clock c msg w w1)
        as (_ & Hcc & _); [eauto|].
    - destruct (respond_tables c (header msg) res w1) as (_ & -> & _).
      by destruct (dispatch_tables Distributor clock c msg w w1)
        as (_ & Hcc & _); [eauto|]. }
  apply set_eq. intros id. by rewrite !elem_of_dom.
Qed.

(** A completed call has written at most one envelope: nothing, or the
    stamped reply on the connection the request came from, or the
    request itself on the connection registered for its recipient. *)
Theorem handleMessage_sends_at_most_one c msg w w' :
  handleMessage Distributor clock c msg w = Done w' ->
  sent w' = sent w \/
  (exists m, sent w' = sent w ++ [(c, m)] /\
             header m = replyHeader (ID w) msg) \/
  (exists recipient,
     registry w !! message.RecipientID (header msg) = Some recipient /\
     message.RecipientID (header msg) <> ID w /\
     sent w' = sent w ++ [(recipient, msg)]).
Proof.
  unfold handleMessage. intros Hdone.
  destruct (dispatch Distributor clock c msg w) as [|w1|w1 res] eqn:Hd;
    [done|..]; injection Hdone as <-.
  - right. right. by apply dispatch_returned in Hd.
  - pose proof (dispatch_fell_sent Distributor clock c msg w w1 res Hd) as Hs.
    destruct (dispatch_tables Distributor clock c msg w w1) as (HID & _);
      [eauto|].
    destruct res as [r|]; cbn; [|by left].
    right. left. eexists. rewrite Hs. split; [done|].
    cbn. by rewrite HID.
Qed.

End HandlerEffects.

(** ** Heartbeats, replies and bookkeeping in sequence *)

Section Sequences.

Context {A : Type} `{!ApplicationLayer A}.
Variable clock : nat -> time.Time.

Implicit Types (w : World A) (c : net.ptr) (msg : Msg).

(** A reply from a sender that is not tracked is dropped: no record is
    created for the sender, the clock is not read, nothing is sent and no
    event is raised; only the debug rendering is requested. *)
Theorem heartbeat_reply_from_untracked_peer c msg w seq :
  body msg = HeartbeatReplyMessage seq ->
  message.RecipientID (header msg) = ID w ->
  connectedClients w !! message.SenderID (header msg) = None ->
  exists w',
    handleMessage false clock c msg w = Done w' /\
    connectedClients w' = connectedClients w /\
    heap w' = heap w /\
    reads w' = reads w /\
    sent w' = sent w /\
    events w' = events w /\
    app w' = RequestDebugRender (app w).
Proof.
  intros Hb Hr Hs. unfold handleMessage, dispatch. rewrite Hb. cbn.
  case_decide; [congruence|]. unfold onHeartbeatReply. cbn.
  case_decide; [|congruence]. rewrite Hs. by eexists.
Qed.

(** One reply from a tracked sender, with the state it leaves. *)
Lemma heartbeat_reply_step c msg w seq info :
  body msg = HeartbeatReplyMessage seq ->
  message.RecipientID (header msg) = ID w ->
  connectedClients w !! message.SenderID (header msg) = Some info ->
  exists w',
    handleMessage false clock c msg w = Done w' /\
    ID w' = ID w /\
    reads w' = S (S (reads w)) /\
    connectedClients w' =
      <[message.SenderID (header msg) :=
          withSample
            (time.Sub (clock (S (reads w)))
               (default time.zeroTime (HeartbeatSendTimes info !! seq)))
            (withLastHeartbeat (clock (reads w)) info)]>
        (connectedClients w).
Proof.
  intros Hb Hr Hs. unfold handleMessage, dispatch. rewrite Hb. cbn.
  case_decide; [congruence|]. unfold onHeartbeatReply. cbn.
  case_decide; [|congruence]. rewrite Hs. cbn.
  eexists. split; [done|]. cbn. by rewrite insert_insert_eq.
Qed.

(** On an instance that is not a distributor, for a reply addressed to
    the instance from a tracked sender: the send time of a heartbeat stays
    on file after its reply, so a reply that arrives twice is counted
    twice, each arrival appending a sample measured from the same send
    time. *)
Theorem heartbeat_reply_twice_counts_twice c msg w seq info :
  body msg = HeartbeatReplyMessage seq ->
  message.RecipientID (header msg) = ID w ->
  connectedClients w !! message.SenderID (header msg) = Some info ->
  exists w1 w2 info2,
    handleMessage false clock c msg w = Done w1 /\
    handleMessage false clock c msg w1 = Done w2 /\
    connectedClients w2 !! message.SenderID (header msg) = Some info2 /\
    HeartbeatSendTimes info2 = HeartbeatSendTimes info /\
    RTTs info2 = RTTs info ++
      [time.Sub (clock (S (reads w)))
         (default time.zeroTime (HeartbeatSendTimes info !! seq));
       time.Sub (clock (S (S (S (reads w)))))
         (default time.zeroTime (HeartbeatSendTimes info !! seq))].
Proof.
  intros Hb Hr Hs.
  destruct (heartbeat_reply_step c msg w seq info Hb Hr Hs)
    as (w1 & H1 & HID1 & Hreads1 & Hcc1).
  destruct (heartbeat_reply_step c msg w1 seq
              (withSample
                 (time.Sub (clock (S (reads w)))
                    (default time.zeroTime (HeartbeatSendTimes info !! seq)))
                 (withLastHeartbeat (clock (reads w)) info)) Hb)
    as (w2 & H2 & _ & _ & Hcc2).
  { congruence. }
  { by rewrite Hcc1, lookup_insert_eq. }
  exists w1, w2. eexists. split; [done|]. split; [done|].
  rewrite Hcc2, lookup_insert_eq. split; [done|]. cbn.
  split; [done|]. by rewrite Hreads1, <- app_assoc.
Qed.

(** The round trip of one heartbeat, on an instance that is not a
    distributor: the scheduler sends it to a live registered peer and
    files the send time; when the reply with the same sequence number,
    addressed to the instance, is handled, the sample appended is the
    time between the two clock readings, the one at the send and the one
    at the reply. *)
Theorem heartbeat_round_trip c msg w id info p :
  connectedClients w !! id = Some info ->
  registry w !! id = Some p ->
  time.Sub (clock (reads w)) (LastHeartbeat info) < timeoutInterval ->
  body msg = HeartbeatReplyMessage (net.Seq (deref w p)) ->
  message.SenderID (header msg) = id ->
  message.RecipientID (header msg) = ID w ->
  exists w' info',
    handleMessage false clock c msg (visit clock w id) = Done w' /\
    connectedClients w' !! id = Some info' /\
    LastHeartbeat info' = clock (S (S (reads w))) /\
    RTTs info' = RTTs info ++
      [time.Sub (clock (S (S (S (reads w))))) (clock (S (reads w)))].
Proof.
  intros Hid Hreg Hlive Hb Hs Hr.
  destruct (visit_outcome clock w id)
    as [[Hnone _]|[(i & q & Hi & Hq & _ & _ & _ & Hcc & _ & Hreads)
                  |(i & Hi & [Hq|Hlate] & _)]]; [congruence| |congruence|].
  2:{ rewrite Hid in Hi. injection Hi as <-. lia. }
  rewrite Hid in Hi. injection Hi as <-.
  rewrite Hreg in Hq. injection Hq as <-.
  assert (HID : ID (visit clock w id) = ID w).
  { unfold visit, GetClient. rewrite Hid, Hreg. cbn. by case_match. }
  destruct (heartbeat_reply_step c msg (visit clock w id)
              (net.Seq (deref w p))
              (withSendTime (net.Seq (deref w p)) (clock (S (reads w))) info)
              Hb)
    as (w' & Hdone & _ & _ & Hcc').
  { congruence. }
  { by rewrite Hs, Hcc, lookup_insert_eq. }
  exists w'. eexists. split; [done|].
  rewrite Hcc', Hs, lookup_insert_eq. split; [done|]. cbn.
  rewrite Hreads. split; [done|]. by rewrite lookup_insert_eq.
Qed.

(** A peer whose tracking has just begun has no samples; the first
    heartbeat handled from it stores the millisecond count of the
    "no samples" value, [-1], as the latency estimate of the connection
    the heartbeat arrived on. *)
Theorem first_heartbeat_stores_unknown_distance c msg w seq metadata :
  body msg = HeartbeatMessage seq metadata ->
  message.RecipientID (header msg) = ID w ->
  exists w',
    handleMessage false clock c msg
      (BeginHeartbeats clock (message.SenderID (header msg)) w) = Done w' /\
    net.Distance (deref w' c) = -1.
Proof.
  intros Hb Hr. unfold handleMessage, dispatch. rewrite Hb. cbn.
  case_decide; [congruence|]. unfold onHeartbeat. cbn.
  rewrite lookup_insert_eq. cbn.
  eexists. split; [done|]. unfold deref. cbn.
  by rewrite lookup_total_insert_eq.
Qed.

(** Ending the tracking of a peer right after it began gives back the
    liveness table as it was, provided the peer was not tracked before. *)
Theorem EndHeartbeats_undoes_BeginHeartbeats w id :
  connectedClients w !! id = None ->
  connectedClients (EndHeartbeats id (BeginHeartbeats clock id w))
    = connectedClients w.
Proof.
  intros Hnone. cbn. rewrite delete_insert_eq. by apply delete_id.
Qed.

End Sequences.

(** ** The lobby view *)

Section LobbyView.

Import lobby.

Variable AddPlayer : string -> Lobby -> Lobby.
Variable RemovePlayer : string -> Lobby -> Lobby.

(** How a join request is answered.  The request is admitted exactly
    when the number of players differs from the capacity and the code
    matches; a full lobby is reported before the code is looked at.  A
    refusal leaves the lobby alone and carries an empty lobby; an
    admission carries the lobby with the player added. *)
Theorem ProcessMessage_join from Code PlayerID l :
  exists status carried,
    (ProcessMessage AddPlayer RemovePlayer from (JoinMessage Code PlayerID) l).1
      = Some (JoinReplyMessage carried status) /\
    (status = ErrCapacity <-> Z.of_nat (length (PlayerIDs l)) = Capacity l) /\
    (status = OK <->
       Z.of_nat (length (PlayerIDs l)) <> Capacity l /\ code l = Code) /\
    (ProcessMessage AddPlayer RemovePlayer from (JoinMessage Code PlayerID) l).2
      = match status with OK => AddPlayer PlayerID l | _ => l end /\
    carried = match status with OK => AddPlayer PlayerID l | _ => zero end.
Proof.
  cbn. destruct (Z.eqb_spec (Z.of_nat (length (PlayerIDs l))) (Capacity l)).
  - exists ErrCapacity, zero. cbn. split_and!; try done. split; [done|].
    by intros [? _].
  - destruct (String.eqb_spec (code l) Code) as [Hc|Hc]; cbn.
    + exists OK, (AddPlayer PlayerID l). cbn. split_and!; try done.
    + exists ErrWrongCode, zero. cbn. split_and!; try done. split; [done|].
      by intros [_ ?].
Qed.

(** For one call that runs without interleaving: as long as [AddPlayer]
    adds at most one player, [RemovePlayer] adds none and neither changes
    the capacity, a lobby that is within its capacity when the call
    starts is within its capacity when the call returns. *)
Theorem ProcessMessage_respects_capacity from p l :
  (forall id l0,
     Capacity (AddPlayer id l0) = Capacity l0 /\
     (length (PlayerIDs (AddPlayer id l0)) <= S (length (PlayerIDs l0)))%nat) ->
  (forall id l0,
     Capacity (RemovePlayer id l0) = Capacity l0 /\
     (length (PlayerIDs (RemovePlayer id l0)) <= length (PlayerIDs l0))%nat) ->
  Z.of_nat (length (PlayerIDs l)) <= Capacity l ->
  Z.of_nat
    (length (PlayerIDs (ProcessMessage AddPlayer RemovePlayer from p l).2))
    <= Capacity (ProcessMessage AddPlayer RemovePlayer from p l).2.
Proof.
  intros HAdd HRem Hcap. destruct p as [|Code PlayerID|PlayerID|]; cbn.
  - done.
  - destruct (Z.eqb_spec (Z.of_nat (length (PlayerIDs l))) (Capacity l));
      [done|].
    destruct (negb _); [done|]. cbn.
    destruct (HAdd PlayerID l) as [-> Hlen]. lia.
  - destruct (HRem PlayerID l) as [-> Hlen]. lia.
  - done.
Qed.

End LobbyView.

(** * The further properties at concrete inputs *)

Lemma GetMeanRTT_forgets_old_samples_witness :
  length (RTTs infoEleven) = S (Z.to_nat rttAverageNum) /\
  GetMeanRTT {| LastHeartbeat := 0; HeartbeatSendTimes := ∅;
                RTTs := [900 * time.Millisecond; 800 * time.Millisecond]
                        ++ RTTs infoEleven |}
  = GetMeanRTT {| LastHeartbeat := 0; HeartbeatSendTimes := ∅;
                  RTTs := RTTs infoEleven |}.
Proof.
  split; [reflexivity|].
  apply (GetMeanRTT_forgets_old_samples
           {| LastHeartbeat := 0; HeartbeatSendTimes := ∅;
              RTTs := [900 * time.Millisecond; 800 * time.Millisecond]
                      ++ RTTs infoEleven |}
           [900 * time.Millisecond; 800 * time.Millisecond]
           (RTTs infoEleven)); reflexivity.
Defined.

Lemma infoThree_samples :
  Forall (fun d => 30 * time.Millisecond <= d <= 50 * time.Millisecond)
    (RTTs infoThree).
Proof. repeat constructor; by vm_compute. Qed.

Lemma GetMeanRTT_between_witness :
  RTTs infoThree <> [] /\
  30 * time.Millisecond <= GetMeanRTT infoThree <= 50 * time.Millisecond.
Proof.
  split; [discriminate|].
  apply (GetMeanRTT_between infoThree
           (30 * time.Millisecond) (50 * time.Millisecond)).
  - by vm_compute.
  - by vm_compute.
  - discriminate.
  - apply infoThree_samples.
Defined.

Lemma GetMeanRTT_negative_iff_empty_witness :
  GetMeanRTT infoThree < 0 <-> RTTs infoThree = [].
Proof.
  apply (GetMeanRTT_negative_iff_empty infoThree).
  eapply Forall_impl; [apply infoThree_samples|].
  intros d. cbn. unfold time.Millisecond. lia.
Defined.

Lemma rangeOrder_worldGone : rangeOrder ["gone"] worldGone.
Proof.
  split; [apply NoDup_singleton|]. intros id. cbn.
  rewrite list_elem_of_singleton. split.
  - intros ->. by rewrite lookup_singleton_eq.
  - intros [info Hid]. by apply lookup_singleton_Some in Hid as [-> _].
Qed.

Lemma tick_restores_cover_witness :
  ~ trackedAreRegistered worldGone /\
  trackedAreRegistered (tick clockAt1s ["gone"] worldGone).
Proof.
  split.
  - intros Hcover. destruct (Hcover "gone") as [p Hp]; [by exists infoIdle|].
    by vm_compute in Hp.
  - apply (tick_restores_cover clockAt1s ["gone"] worldGone).
    apply rangeOrder_worldGone.
Defined.


Lemma tick_evicts_unregistered_peer_witness :
  registry worldGone !! "gone" = None /\
  (exists evs,
     events (tick clockAt1s ["gone"] worldGone) = events worldGone ++ evs /\
     disconnects "gone" evs = 1%nat) /\
  connectedClients (tick clockAt1s ["gone"] worldGone) !! "gone" = None.
Proof.
  split; [reflexivity|].
  apply (tick_evicts_unregistered_peer clockAt1s ["gone"] worldGone "gone"
           infoIdle).
  - apply rangeOrder_worldGone.
  - reflexivity.
  - reflexivity.
Defined.


Lemma handleMessage_signals_once_witness :
  exists w',
    handleMessage false clockAt1s 1%positive
      (fromPeer "dest" (Application "hello")) worldTwoPeers = Done w' /\
    signalled w' =
      signalled worldTwoPeers
      ++ [("m-42", fromPeer "dest" (Application "hello"))].
Proof.
  eexists. split; [reflexivity|].
  apply (handleMessage_signals_once false clockAt1s 1%positive
           (fromPeer "dest" (Application "hello")) worldTwoPeers).
  reflexivity.
Defined.

Lemma handleMessage_application_calls_witness :
  exists w',
    handleMessage false clockAt1s 1%positive joinRequest worldBusy = Done w' /\
    processed w' = processed worldBusy ++ [(1%positive, joinRequest)].
Proof.
  eexists. split; [reflexivity|].
  apply (handleMessage_application_calls false clockAt1s 1%positive
           joinRequest worldBusy).
  reflexivity.
Defined.

Lemma handleMessage_keeps_tracked_set_witness :
  exists w',
    handleMessage false clockAt1s 1%positive
      (fromPeer "self" DisconnectMessage) worldPeer = Done w' /\
    dom (connectedClients w') = dom (connectedClients worldPeer).
Proof.
  eexists. split; [reflexivity|].
  apply (handleMessage_keeps_tracked_set false clockAt1s 1%positive
           (fromPeer "self" DisconnectMessage) worldPeer).
  reflexivity.
Defined.

Lemma handleMessage_sends_at_most_one_witness :
  exists w',
    handleMessage false clockAt1s 1%positive
      (fromPeer "nobody" (Application "hello")) worldPeer = Done w' /\
    (sent w' = sent worldPeer \/
     (exists m, sent w' = sent worldPeer ++ [(1%positive, m)] /\
                header m = replyHeader (ID worldPeer)
                             (fromPeer "nobody" (Application "hello"))) \/
     (exists recipient,
        registry worldPeer !! "nobody" = Some recipient /\
        "nobody" <> ID worldPeer /\
        sent w' = sent worldPeer
                  ++ [(recipient, fromPeer "nobody" (Application "hello"))])).
Proof.
  eexists. split; [reflexivity|].
  apply (handleMessage_sends_at_most_one false clockAt1s 1%positive
           (fromPeer "nobody" (Application "hello")) worldPeer).
  reflexivity.
Defined.

Lemma heartbeat_reply_from_untracked_peer_witness :
  connectedClients worldEmpty !! "peer" = None /\
  exists w',
    handleMessage false clockAt1s 1%positive
      (fromPeer "self" (HeartbeatReplyMessage 3)) worldEmpty = Done w' /\
    connectedClients w' = connectedClients worldEmpty /\
    heap w' = heap worldEmpty /\
    reads w' = reads worldEmpty /\
    sent w' = sent worldEmpty /\
    events w' = events worldEmpty /\
    app w' = RequestDebugRender (app worldEmpty).
Proof.
  split; [reflexivity|].
  apply (heartbeat_reply_from_untracked_peer clockAt1s 1%positive
           (fromPeer "self" (HeartbeatReplyMessage 3)) worldEmpty 3);
    reflexivity.
Defined.

Lemma heartbeat_reply_twice_counts_twice_witness :
  exists w1 w2 info2,
    handleMessage false clockTicking 1%positive
      (fromPeer "self" (HeartbeatReplyMessage 7)) worldPeer = Done w1 /\
    handleMessage false clockTicking 1%positive
      (fromPeer "self" (HeartbeatReplyMessage 7)) w1 = Done w2 /\
    connectedClients w2 !! "peer" = Some info2 /\
    HeartbeatSendTimes info2 = HeartbeatSendTimes infoIdle /\
    RTTs info2 = RTTs infoIdle ++
      [time.Sub (clockTicking 1)
         (default time.zeroTime (HeartbeatSendTimes infoIdle !! 7));
       time.Sub (clockTicking 3)
         (default time.zeroTime (HeartbeatSendTimes infoIdle !! 7))].
Proof.
  apply (heartbeat_reply_twice_counts_twice clockTicking 1%positive
           (fromPeer "self" (HeartbeatReplyMessage 7)) worldPeer 7 infoIdle);
    reflexivity.
Defined.

Lemma heartbeat_round_trip_witness :
  exists w' info',
    handleMessage false clockTicking 1%positive
      (fromPeer "self" (HeartbeatReplyMessage 7))
      (visit clockTicking worldPeer "peer") = Done w' /\
    connectedClients w' !! "peer" = Some info' /\
    LastHeartbeat info' = clockTicking 2 /\
    RTTs info' = RTTs infoIdle
                 ++ [time.Sub (clockTicking 3) (clockTicking 1)].
Proof.
  apply (heartbeat_round_trip clockTicking 1%positive
           (fromPeer "self" (HeartbeatReplyMessage 7)) worldPeer "peer"
           infoIdle 1%positive); try reflexivity.
Defined.

Lemma first_heartbeat_stores_unknown_distance_witness :
  exists w',
    handleMessage false clockAt1s 1%positive
      (fromPeer "self" (HeartbeatMessage 5 "M"))
      (BeginHeartbeats clockAt1s "peer" worldEmpty) = Done w' /\
    net.Distance (deref w' 1%positive) = -1.
Proof.
  apply (first_heartbeat_stores_unknown_distance clockAt1s 1%positive
           (fromPeer "self" (HeartbeatMessage 5 "M")) worldEmpty 5 "M");
    reflexivity.
Defined.

Lemma EndHeartbeats_undoes_BeginHeartbeats_witness :
  connectedClients worldEmpty !! "peer" = None /\
  connectedClients
    (EndHeartbeats "peer" (BeginHeartbeats clockAt1s "peer" worldEmpty))
  = connectedClients worldEmpty.
Proof.
  split; [reflexivity|].
  apply (EndHeartbeats_undoes_BeginHeartbeats clockAt1s worldEmpty "peer").
  reflexivity.
Defined.

Lemma distributor_panics_when_addressed_witness :
  handleMessage true clockAt1s 1%positive
    (fromPeer "self" (Application "hello")) worldPeer = Panic.
Proof.
  apply (distributor_panics_when_addressed true clockAt1s 1%positive
           (fromPeer "self" (Application "hello")) worldPeer).
  - reflexivity.
  - discriminate.
  - reflexivity.
Defined.

Lemma ProcessMessage_respects_capacity_witness :
  Z.of_nat (length (lobby.PlayerIDs lobby.duel)) <= lobby.Capacity lobby.duel /\
  Z.of_nat
    (length (lobby.PlayerIDs
       (lobby.ProcessMessage lobby.appendPlayer lobby.dropPlayer 1%positive
          (lobby.JoinMessage "1234" "guest") lobby.duel).2))
  <= lobby.Capacity
       (lobby.ProcessMessage lobby.appendPlayer lobby.dropPlayer 1%positive
          (lobby.JoinMessage "1234" "guest") lobby.duel).2.
Proof.
  split; [by vm_compute|].
  apply (ProcessMessage_respects_capacity lobby.appendPlayer lobby.dropPlayer
           1%positive (lobby.JoinMessage "1234" "guest") lobby.duel).
  - intros id l0. split; [reflexivity|]. cbn. rewrite length_app. cbn. lia.
  - intros id l0. split; [reflexivity|]. cbn. apply length_filter.
  - by vm_compute.
Defined.

(** * Where samples and last-heartbeat times come from *)

Section Records.

Context {A : Type} `{!ApplicationLayer A}.
Variable Distributor : bool.
Variable clock : nat -> time.Time.

Implicit Types (w : World A) (c : net.ptr) (msg : Msg) (id k : string).

Lemma visit_keeps_samples w k id info' :
  connectedClients (visit clock w k) !! id = Some info' ->
  exists info,
    connectedClients w !! id = Some info /\
    RTTs info' = RTTs info /\
    LastHeartbeat info' = LastHeartbeat info.
Proof.
  destruct (visit_outcome clock w k)
    as [[_ ->]|[(i & p & Hi & _ & _ & _ & _ & -> & _)|(i & _ & _ & _ & _ & ->)]].
  - by eauto.
  - destruct (decide (k = id)) as [->|Hne].
    + rewrite lookup_insert_eq. intros [= <-]. by eauto.
    + rewrite lookup_insert_ne by done. by eauto.
  - destruct (decide (k = id)) as [->|Hne].
    + by rewrite lookup_delete_eq.
    + rewrite lookup_delete_ne by done. by eauto.
Qed.

(** The scheduler never refreshes a last-heartbeat time and never touches
    the samples: every record that is in the table after a pass was there
    before it, with the same last-heartbeat time and the same samples. *)
Theorem tick_keeps_samples (order : list string) w id info' :
  connectedClients (tick clock order w) !! id = Some info' ->
  exists info,
    connectedClients w !! id = Some info /\
    RTTs info' = RTTs info /\
    LastHeartbeat info' = LastHeartbeat info.
Proof.
  unfold tick. revert w. induction order as [|k order IH]; intros w Hid.
  - by eauto.
  - cbn [fold_left] in Hid.
    destruct (IH _ Hid) as (info1 & H1 & HR1 & HL1).
    destruct (visit_keeps_samples w k id info1 H1) as (info & H0 & HR0 & HL0).
    exists info. split_and!; [done|congruence..].
Qed.

(** What the first part of the handler does to the liveness table for an
    envelope that is not a heartbeat reply: nothing, or the refresh of
    the sender's last-heartbeat time. *)
Lemma dispatch_records c msg w :
  forall w',
    (dispatch Distributor clock c msg w = Returned w' \/
     exists res, dispatch Distributor clock c msg w = Fell w' res) ->
    (forall seq, body msg <> HeartbeatReplyMessage seq) ->
    connectedClients w' = connectedClients w \/
    exists info now,
      connectedClients w !! message.SenderID (header msg) = Some info /\
      connectedClients w' =
        <[message.SenderID (header msg) := withLastHeartbeat now info]>
          (connectedClients w).
Proof.
  intros w'. unfold dispatch.
  destruct (Distributor && negb (sliceable (message.SenderID (header msg))));
    [no_result|].
  destruct (body msg) eqn:Hb.
  { fell_through. by left. }
  all: cbn [ID SignalReceived setSignalled]; case_decide as Hr;
    [ destruct (Distributor
                && negb (sliceable (message.RecipientID (header msg))));
      [no_result|];
      unfold GetClient; cbn;
      destruct (registry w !! message.RecipientID (header msg));
      [ intros [[= <-]|[? ?]]; [by left|discriminate]
      | fell_through; by left ]
    | destruct Distributor; [no_result|] ].
  - unfold onHeartbeat. cbn.
    destruct (connectedClients w !! message.SenderID (header msg)) eqn:Hs;
      fell_through; intros _; [|by left].
    right. by eexists _, _.
  - intros _ Hnot. by destruct (Hnot Seq).
  - unfold process. cbn. destruct (ProcessMessage _ _ _) as [r a].
    fell_through. by left.
  - unfold process. cbn. destruct (ProcessMessage _ _ _) as [r a].
    fell_through. by left.
Qed.

(** Samples come from heartbeat replies only: handling any other envelope
    leaves the samples and the pending send times of every tracked peer
    as they were. *)
Theorem handleMessage_samples_only_from_replies c msg w w' id info :
  handleMessage Distributor clock c msg w = Done w' ->
  (forall seq, body msg <> HeartbeatReplyMessage seq) ->
  connectedClients w !! id = Some info ->
  exists info',
    connectedClients w' !! id = Some info' /\
    RTTs info' = RTTs info /\
    HeartbeatSendTimes info' = HeartbeatSendTimes info.
Proof.
  unfold handleMessage. intros Hdone Hnot Hid.
  assert (Hcc : connectedClients w' = connectedClients w \/
                exists i now,
                  connectedClients w !! message.SenderID (header msg) = Some i /\
                  connectedClients w' =
                    <[message.SenderID (header msg) := withLastHeartbeat now i]>
                      (connectedClients w)).
  { destruct (dispatch Distributor clock c msg w) as [|w1|w1 res] eqn:Hd;
      [done|..]; injection Hdone as <-.
    - apply (dispatch_records c msg w w1); eauto.
    - destruct (respond_tables c (header msg) res w1) as (_ & -> & _).
      apply (dispatch_records c msg w w1); eauto. }
  destruct Hcc as [->|(i & now & Hi & ->)]; [by eauto|].
  destruct (decide (message.SenderID (header msg) = id)) as [Heq|Hne].
  - rewrite Heq, lookup_insert_eq. rewrite Heq, Hid in Hi.
    injection Hi as <-. by eauto.
  - rewrite lookup_insert_ne by done. by eauto.
Qed.

(** A reply whose sequence number has no send time on file is measured
    from the zero time.  The clock of a running program is further from
    the zero time than a [Duration] can express, and the subtraction
    saturates: the sample appended is the largest [Duration]. *)
Theorem heartbeat_reply_unknown_seq c msg w seq info :
  body msg = HeartbeatReplyMessage seq ->
  message.RecipientID (header msg) = ID w ->
  connectedClients w !! message.SenderID (header msg) = Some info ->
  HeartbeatSendTimes info !! seq = None ->
  time.maxDuration < clock (S (reads w)) ->
  exists w' info',
    handleMessage false clock c msg w = Done w' /\
    connectedClients w' !! message.SenderID (header msg) = Some info' /\
    RTTs info' = RTTs info ++ [time.maxDuration].
Proof.
  intros Hb Hr Hs Hseq Hfar.
  destruct (heartbeat_reply_step clock c msg w seq info Hb Hr Hs)
    as (w' & Hdone & _ & _ & Hcc).
  exists w'. eexists. split; [done|].
  rewrite Hcc, lookup_insert_eq. split; [done|]. cbn.
  rewrite Hseq. cbn. unfold time.Sub, time.zeroTime.
  rewrite Z.sub_0_r.
  by destruct (Z.ltb_spec time.maxDuration (clock (S (reads w)))); [|lia].
Qed.

End Records.

Lemma tick_keeps_samples_witness :
  connectedClients (tick clockAt1s ["peer"] worldPeer) !! "peer"
    = Some (withSendTime 7 (clockAt1s 1) infoIdle) /\
  exists info,
    connectedClients worldPeer !! "peer" = Some info /\
    RTTs (withSendTime 7 (clockAt1s 1) infoIdle) = RTTs info /\
    LastHeartbeat (withSendTime 7 (clockAt1s 1) infoIdle) = LastHeartbeat info.
Proof.
  split; [reflexivity|].
  apply (tick_keeps_samples clockAt1s ["peer"] worldPeer "peer"
           (withSendTime 7 (clockAt1s 1) infoIdle)).
  reflexivity.
Defined.

Lemma handleMessage_samples_only_from_replies_witness :
  exists w',
    handleMessage false clockAt1s 1%positive
      (fromPeer "self" (HeartbeatMessage 5 "M")) worldPeer = Done w' /\
    exists info',
      connectedClients w' !! "peer" = Some info' /\
      RTTs info' = RTTs infoIdle /\
      HeartbeatSendTimes info' = HeartbeatSendTimes infoIdle.
Proof.
  eexists. split; [reflexivity|].
  apply (handleMessage_samples_only_from_replies false clockAt1s 1%positive
           (fromPeer "self" (HeartbeatMessage 5 "M")) worldPeer).
  - reflexivity.
  - discriminate.
  - reflexivity.
Defined.

Lemma heartbeat_reply_unknown_seq_witness :
  HeartbeatSendTimes infoIdle !! 99 = None /\
  time.maxDuration < clockWall 1 /\
  exists w' info',
    handleMessage false clockWall 1%positive
      (fromPeer "self" (HeartbeatReplyMessage 99)) worldPeer = Done w' /\
    connectedClients w' !! "peer" = Some info' /\
    RTTs info' = RTTs infoIdle ++ [time.maxDuration].
Proof.
  split; [reflexivity|]. split; [reflexivity|].
  apply (heartbeat_reply_unknown_seq clockWall 1%positive
           (fromPeer "self" (HeartbeatReplyMessage 99)) worldPeer 99 infoIdle);
    reflexivity.
Defined.
